(** * frappe: route-history retention and the Jinja helpers

    A shallow embedding of two modules of the framework,

      - [frappe/desk/doctype/route_history/route_history.py]
      - [frappe/utils/jinja.py]

    together with the properties proved about them.  Python values are
    embedded as an inductive type, exceptions as a sum type, the database
    table as the list of its rows, and the calls a function makes to the
    template engine as a trace that the function returns next to its
    result. *)

From Stdlib Require Import List String Ascii ZArith Bool Arith Lia.
From Stdlib Require Import Permutation Sorted DecimalString.
Import ListNotations.

Local Open Scope string_scope.
Local Open Scope list_scope.

(* ================================================================= *)
(** * Python layer: exceptions, strings, values, dictionaries          *)
(* ================================================================= *)

Module Py.

(** Exceptions that the two modules raise or catch.  The three
    [Template...] constructors are the subclasses of jinja2's
    [TemplateError]; [TemplateNotFound] is one of them. *)
Inductive exn : Type :=
| TemplateNotFound (name : string)
| TemplateSyntaxError (msg : string)
| TemplateRuntimeError (msg : string)
| ValidationError (title : option string) (msg : string)
| TypeError (msg : string)
| IndexError (msg : string)
| OtherException (msg : string).

(** [isinstance(e, TemplateError)] *)
Definition is_TemplateError (e : exn) : bool :=
  match e with
  | TemplateNotFound _ | TemplateSyntaxError _ | TemplateRuntimeError _ => true
  | _ => false
  end.

(** [isinstance(e, TemplateNotFound)] *)
Definition is_TemplateNotFound (e : exn) : bool :=
  match e with
  | TemplateNotFound _ => true
  | _ => false
  end.

(** The outcome of a call: a value or a raised exception. *)
Inductive result (A : Type) : Type :=
| Ok (a : A)
| Raise (e : exn).
Arguments Ok {A} a.
Arguments Raise {A} e.

Definition rbind {A B : Type} (r : result A) (k : A -> result B) : result B :=
  match r with
  | Ok a => k a
  | Raise e => Raise e
  end.

(** ** Strings

    A Python [str] is embedded as a Rocq [string]; each character stands
    for the code point of the same number. *)

Definition newline : string := String "010" EmptyString.
Definition dquote : string := String "034" EmptyString.

(** [sub in s] for two strings: [sub] occurs in [s] as a substring. *)
Fixpoint str_in (sub s : string) : bool :=
  String.prefix sub s ||
  match s with
  | EmptyString => false
  | String _ s' => str_in sub s'
  end.

(** [s.startswith(p)] *)
Definition startswith (s p : string) : bool := String.prefix p s.

(** [s.rsplit(sep)] for a separator of one character and no [maxsplit]:
    the pieces between the occurrences of [sep], left to right. *)
Fixpoint rsplit (s : string) (sep : ascii) : list string :=
  match s with
  | EmptyString => [EmptyString]
  | String c s' =>
      if Ascii.eqb c sep then EmptyString :: rsplit s' sep
      else match rsplit s' sep with
           | [] => [String c EmptyString]
           | piece :: pieces => String c piece :: pieces
           end
  end.

(** [c.isspace()] for the code points below 256. *)
Definition isspace (c : ascii) : bool :=
  let n := nat_of_ascii c in
  (Nat.leb 9 n && Nat.leb n 13) || (Nat.leb 28 n && Nat.leb n 32)
  || Nat.eqb n 133 || Nat.eqb n 160.

Fixpoint lstrip (s : string) : string :=
  match s with
  | EmptyString => EmptyString
  | String c s' => if isspace c then lstrip s' else s
  end.

Fixpoint rstrip (s : string) : string :=
  match s with
  | EmptyString => EmptyString
  | String c s' =>
      match rstrip s' with
      | EmptyString => if isspace c then EmptyString else String c EmptyString
      | r => String c r
      end
  end.

(** [s.strip()] *)
Definition strip (s : string) : string := rstrip (lstrip s).

(** ** Values *)

#[warnings="-register-all"]
Inductive pyvalue : Type :=
| PyNone
| PyBool (b : bool)
| PyInt (z : Z)
| PyStr (s : string)
| PyList (xs : list pyvalue)
| PyTuple (xs : list pyvalue)
| PyDict (items : list (string * pyvalue)).

(** A [dict] with string keys, as the list of its items in insertion
    order.  A well-formed dictionary holds every key once. *)
Definition dict : Type := list (string * pyvalue).

Definition dict_wf (d : dict) : Prop := NoDup (map fst d).

(** [bool(v)] *)
Definition truthy (v : pyvalue) : bool :=
  match v with
  | PyNone => false
  | PyBool b => b
  | PyInt z => negb (Z.eqb z 0)
  | PyStr s => negb (String.eqb s EmptyString)
  | PyList xs | PyTuple xs => match xs with [] => false | _ => true end
  | PyDict items => match items with [] => false | _ => true end
  end.

(** [d.get(k)] *)
Fixpoint dict_get (k : string) (d : dict) : option pyvalue :=
  match d with
  | [] => None
  | (k', v) :: d' => if String.eqb k k' then Some v else dict_get k d'
  end.

(** [k in d] *)
Definition dict_contains (k : string) (d : dict) : bool :=
  match dict_get k d with Some _ => true | None => false end.

(** [d[k] = v]: the value is replaced where the key stands, a new key
    goes to the end. *)
Fixpoint dict_set (k : string) (v : pyvalue) (d : dict) : dict :=
  match d with
  | [] => [(k, v)]
  | (k', v') :: d' =>
      if String.eqb k k' then (k', v) :: d' else (k', v') :: dict_set k v d'
  end.

(** [d.update(other)] *)
Definition dict_update (d other : dict) : dict :=
  fold_left (fun acc kv => dict_set (fst kv) (snd kv) acc) other d.

(** [sep.join(items)]: every item has to be a [str]. *)
Fixpoint as_strs (items : list pyvalue) : result (list string) :=
  match items with
  | [] => Ok []
  | PyStr s :: rest => rbind (as_strs rest) (fun ss => Ok (s :: ss))
  | _ :: _ => Raise (TypeError "sequence item: expected str instance")
  end.

Definition str_join (sep : string) (items : list pyvalue) : result string :=
  rbind (as_strs items) (fun ss => Ok (String.concat sep ss)).

End Py.
Import Py.

(* ================================================================= *)
(** * route_history.py                                                 *)
(* ================================================================= *)

Module RouteHistory.

(** A row of [tabRoute History]. *)
Record Row : Type := mkRow {
  name : string;
  user : string;
  route : string;
  modified : Z
}.

(** The table, as the list of its rows. *)
Definition Table : Type := list Row.

Definition rows_of (u : string) (tbl : Table) : list Row :=
  filter (fun r => String.eqb (user r) u) tbl.

(** [SELECT user FROM tabRoute History GROUP BY user
     HAVING count(name) > limit] *)
Definition sql_users_over (limit : nat) (tbl : Table) : list string :=
  filter (fun u => Nat.ltb limit (List.length (rows_of u tbl)))
         (nodup string_dec (map user tbl)).

(** [ORDER BY modified DESC], by insertion. *)
Fixpoint insert_desc (r : Row) (l : list Row) : list Row :=
  match l with
  | [] => [r]
  | x :: l' =>
      if (modified x <=? modified r)%Z then r :: l
      else x :: insert_desc r l'
  end.

Fixpoint order_by_modified_desc (l : list Row) : list Row :=
  match l with
  | [] => []
  | r :: l' => insert_desc r (order_by_modified_desc l')
  end.

(** [frappe.db.get_all('Route History', filters={'user': user},
      limit=..., limit_start=..., fields=['modified'],
      order_by='modified desc')] *)
Definition get_all (u : string) (limit limit_start : nat) (tbl : Table)
  : list Z :=
  map modified
      (firstn limit (skipn limit_start (order_by_modified_desc (rows_of u tbl)))).

(** [frappe.db.delete('Route History',
      {'modified': ('<=', m), 'user': user})] *)
Definition db_delete (m : Z) (u : string) (tbl : Table) : Table :=
  filter (fun r => negb ((modified r <=? m)%Z && String.eqb (user r) u)) tbl.

Definition records_to_keep_limit : nat := 500.

(** The body of the loop of [flush_old_route_records] for one user. *)
Definition flush_user (tbl : Table) (u : string) : result Table :=
  let last_record_to_keep := get_all u 1 500 tbl in
  match last_record_to_keep with
  | [] => Raise (IndexError "list index out of range")
  | m :: _ => Ok (db_delete m u tbl)
  end.

Fixpoint for_users (users : list string) (tbl : Table) : result Table :=
  match users with
  | [] => Ok tbl
  | u :: rest => rbind (flush_user tbl u) (for_users rest)
  end.

(** [flush_old_route_records()]: the table after the call. *)
Definition flush_old_route_records (tbl : Table) : result Table :=
  let users := sql_users_over records_to_keep_limit tbl in
  for_users users tbl.

End RouteHistory.

(* ================================================================= *)
(** * jinja.py                                                         *)
(* ================================================================= *)

Module Jinja.

(** ** The template engine and the other things around the module

    jinja2 and the [frontmatter] package are libraries; they enter as
    the fields of a record.  A compiled template is what its [render]
    does with a context. *)

Record Template : Type := { render : dict -> result string }.

Record Environment : Type := {
  (** [jenv.loader.get_source(jenv, name)[0]] *)
  loader_get_source : string -> result string;
  (** [jenv.get_template(path)] *)
  get_template : string -> result Template;
  (** [jenv.from_string(source)]: compiles the source *)
  from_string : string -> result Template
}.

(** What [Frontmatter.read] returns.  The front matter of a component
    is a YAML mapping with string keys; an empty block loads as
    [None]. *)
Record FrontmatterResult : Type := {
  fm_attributes : option dict;
  fm_body : string;
  fm_frontmatter : string
}.

Record Framework : Type := {
  (** [frappe.local.jenv], once built *)
  local_jenv : Environment;
  (** [Frontmatter.read] *)
  Frontmatter_read : string -> result FrontmatterResult;
  (** [frappe.get_traceback()] inside a handler *)
  get_traceback : exn -> string
}.

(** ** Calls to the outside, and the monad that records them *)

Inductive event : Type :=
| EvGetJenv
| EvGetSource (template_name : string)
| EvGetTemplate (path : string)
| EvFromString (source : string)
| EvRender (context : dict)
| EvFrontmatterRead (source : string)
| EvPrint (msg : string).

(** A computation: the calls it made, in order, and how it ended. *)
Definition M (A : Type) : Type := list event * result A.

Definition ret {A : Type} (a : A) : M A := ([], Ok a).

Definition raise {A : Type} (e : exn) : M A := ([], Raise e).

Definition bind {A B : Type} (m : M A) (k : A -> M B) : M B :=
  match m with
  | (t, Ok a) => let (t', r) := k a in (t ++ t', r)
  | (t, Raise e) => (t, Raise e)
  end.

(** A call to the outside: recorded, then it ends as the callee does. *)
Definition call {A : Type} (ev : event) (r : result A) : M A := ([ev], r).

(** An exception-free step of Python itself. *)
Definition lift {A : Type} (r : result A) : M A := ([], r).

(** [try: m  except ... as e: h e]; the handler decides whether the
    exception is one of its own and raises it again when it is not. *)
Definition try_except {A : Type} (m : M A) (h : exn -> M A) : M A :=
  match m with
  | (t, Raise e) => let (t', r) := h e in (t ++ t', r)
  | (t, Ok a) => (t, Ok a)
  end.

Declare Scope py_scope.
Delimit Scope py_scope with py.
Notation "x <- m ;; k" := (bind m (fun x => k))
  (at level 61, m at next level, right associativity) : py_scope.
Notation "m ;;; k" := (bind m (fun _ => k))
  (at level 61, right associativity) : py_scope.
Local Open Scope py_scope.

Definition trace {A : Type} (m : M A) : list event := fst m.
Definition outcome {A : Type} (m : M A) : result A := snd m.

(** [frappe.throw(msg, title=title)]: always raises. *)
Definition throw {A : Type} (title : option string) (msg : string) : M A :=
  raise (ValidationError title msg).

(** [print(msg)] *)
Definition print (msg : string) : M unit := call (EvPrint msg) (Ok tt).

(** [get_jenv()]: the environment of the site. *)
Definition get_jenv (fw : Framework) : M Environment :=
  call EvGetJenv (Ok (local_jenv fw)).

(** The operands of the [+] in the handler of
    [parse_front_matter_attrs_and_html]. *)
Inductive operand : Type :=
| OStr (s : string)
| OExc (e : exn).

(** [a + b]: [str.__add__] takes a [str] only, and an exception object
    has no [__radd__]. *)
Definition py_add (a b : operand) : result string :=
  match a, b with
  | OStr x, OStr y => Ok (x ++ y)%string
  | _, _ => Raise (TypeError "can only concatenate str to str")
  end.

(** ** guess_is_path *)

Definition guess_is_path (template : string) : bool :=
  if negb (str_in newline template) && str_in "." template then
    let extn := List.last (rsplit template ".") EmptyString in
    if existsb (String.eqb extn) ["html"; "css"; "scss"; "py"] then true
    else false
  else false.

(** ** render_template

    [template] is a [str] or [None]; [is_path] defaults to [None]. *)

Definition not_template (template : option string) : bool :=
  match template with
  | None => true
  | Some s => String.eqb s EmptyString
  end.

Definition is_path_truthy (is_path : option bool) : bool :=
  match is_path with
  | Some b => b
  | None => false
  end.

Definition render_template (fw : Framework) (template : option string)
    (context : dict) (is_path : option bool) (safe_render : bool) : M string :=
  match template with
  | None => ret EmptyString
  | Some template =>
      if String.eqb template EmptyString then ret EmptyString
      else if is_path_truthy is_path || guess_is_path template then
        jenv <- get_jenv fw ;;
        t <- call (EvGetTemplate template) (get_template jenv template) ;;
        call (EvRender context) (render t context)
      else
        (if safe_render && str_in ".__" template
         then throw None "Illegal template" else ret tt) ;;;
        try_except
          (jenv <- get_jenv fw ;;
           t <- call (EvFromString template) (from_string jenv template) ;;
           call (EvRender context) (render t context))
          (fun e =>
             if is_TemplateError e then
               throw (Some "Jinja Template Error")
                     ("<pre>" ++ template ++ "</pre><pre>"
                      ++ get_traceback fw e ++ "</pre>")%string
             else raise e)
  end.

(** ** resolve_class *)

Fixpoint resolve_class (classes : pyvalue) : result pyvalue :=
  match classes with
  | PyNone => Ok (PyStr EmptyString)
  | PyStr s => Ok (PyStr s)
  | PyList cs | PyTuple cs =>
      rbind
        ((fix each (cs : list pyvalue) : result (list pyvalue) :=
            match cs with
            | [] => Ok []
            | c :: cs' =>
                rbind (resolve_class c) (fun r =>
                rbind (each cs') (fun rs => Ok (r :: rs)))
            end) cs)
        (fun rs => rbind (str_join " " rs) (fun s => Ok (PyStr (strip s))))
  | PyDict items =>
      let names :=
        filter (fun classname =>
                  match dict_get classname items with
                  | Some v => truthy v
                  | None => false
                  end)
               (map fst items) in
      rbind (str_join " " (map PyStr names)) (fun s => Ok (PyStr (strip s)))
  | PyBool _ | PyInt _ => Ok classes
  end.

(** The comprehension [[resolve_class(c) for c in classes]] on its own:
    left to right, the first exception ends it. *)
Fixpoint resolve_each (cs : list pyvalue) : result (list pyvalue) :=
  match cs with
  | [] => Ok []
  | c :: cs' =>
      rbind (resolve_class c) (fun r =>
      rbind (resolve_each cs') (fun rs => Ok (r :: rs)))
  end.

(** ** parse_front_matter_attrs_and_html *)

Definition attributes_truthy (a : option dict) : bool :=
  match a with
  | Some (_ :: _) => true
  | _ => false
  end.

Definition parse_front_matter_attrs_and_html (fw : Framework)
    (source : string) : M (dict * string) :=
  let html := source in
  let attributes : dict := [] in
  if negb (startswith source "---") then ret (attributes, html)
  else
    try_except
      (res <- call (EvFrontmatterRead source) (Frontmatter_read fw source) ;;
       match fm_attributes res with
       | Some (item :: items) => ret (item :: items, fm_body res)
       | _ => ret (attributes, html)
       end)
      (fun e =>
         msg <- lift (py_add (OStr "Error parsing Frontmatter in template: ")
                             (OExc e)) ;;
         print msg ;;;
         ret (attributes, html)).

(** ** component *)

Definition not_found_fragment (name : string) : string :=
  ("<pre>Component " ++ dquote ++ name ++ dquote ++ " not found</pre>")%string.

Definition component (fw : Framework) (name : string) (kwargs : dict)
  : M string :=
  let template_name := ("templates/components/" ++ name ++ ".html")%string in
  jenv <- get_jenv fw ;;
  found <- try_except
             (source <- call (EvGetSource template_name)
                             (loader_get_source jenv template_name) ;;
              ret (inr source))
             (fun e =>
                if is_TemplateNotFound e
                then ret (inl (not_found_fragment name))
                else raise e) ;;
  match found with
  | inl fragment => ret fragment
  | inr source =>
      parsed <- parse_front_matter_attrs_and_html fw source ;;
      let (attributes, html) := (parsed : dict * string) in
      let context : dict := [] in
      let context := dict_update context attributes in
      let context := dict_update context kwargs in
      context <- match dict_get "class" context with
                 | Some c =>
                     cls <- lift (resolve_class c) ;;
                     ret (dict_set "class" cls context)
                 | None => ret (dict_set "class" (PyStr EmptyString) context)
                 end ;;
      jenv <- get_jenv fw ;;
      t <- call (EvFromString html) (from_string jenv html) ;;
      call (EvRender context) (render t context)
  end.

End Jinja.

(* ================================================================= *)
(** * Specification vocabulary                                         *)
(* ================================================================= *)

Module Spec.
Import RouteHistory.

(** [sub] occurs in [s]. *)
Definition contains (sub s : string) : Prop :=
  exists a b, s = (a ++ sub ++ b)%string.

(** [ext] is the text of [s] after its last dot. *)
Definition text_after_last_dot (s ext : string) : Prop :=
  exists pre, s = (pre ++ "." ++ ext)%string /\ ~ contains "." ext.

Definition recognised_extension (ext : string) : Prop :=
  ext = "html" \/ ext = "css" \/ ext = "scss" \/ ext = "py".

(** The value of [k] in the merge of two dictionaries in which the
    second takes precedence. *)
Definition merged (attributes kwargs : dict) (k : string) : option pyvalue :=
  match dict_get k kwargs with
  | Some v => Some v
  | None => dict_get k attributes
  end.

(** The context agrees with the merge on every key. *)
Definition is_merge (context attributes kwargs : dict) : Prop :=
  forall k, dict_get k context = merged attributes kwargs k.

(** Compiling [html] and rendering it with [context]. *)
Definition renders (fw : Jinja.Framework) (html : string) (context : dict)
  : Jinja.M string :=
  Jinja.bind (Jinja.get_jenv fw) (fun jenv =>
  Jinja.bind (Jinja.call (Jinja.EvFromString html) (Jinja.from_string jenv html))
             (fun t => Jinja.call (Jinja.EvRender context) (Jinja.render t context))).

(** Where [component] looks for the template of a name. *)
Definition component_path (name : string) : string :=
  ("templates/components/" ++ name ++ ".html")%string.

(** The plain join of the specification: no stripping. *)
Definition plain_join (strs : list string) : string := String.concat " " strs.

(** The keys of a dictionary whose values are truthy, in order. *)
Definition truthy_keys (items : dict) : list string :=
  map fst (filter (fun kv => truthy (snd kv)) items).

(** Every element of [cs] resolves to the string at its place in [strs]. *)
Definition resolve_to (cs : list pyvalue) (strs : list string) : Prop :=
  Forall2 (fun c s => Jinja.resolve_class c = Ok (PyStr s)) cs strs.

(** The rows of one user that a boundary timestamp [m] leaves. *)
Definition newer_than (m : Z) (rows : list Row) : list Row :=
  filter (fun r => negb (modified r <=? m)%Z) rows.

(** The row of rank [n] (counted from 1) among the rows of a user, most
    recent first. *)
Definition nth_most_recent (n : nat) (u : string) (tbl : Table) : option Row :=
  nth_error (order_by_modified_desc (rows_of u tbl)) (n - 1).

(** A run from [tbl] to [tbl'] deleted, of the rows of [u], exactly
    those modified at or before the row of rank [n]. *)
Definition deletes_up_to_rank (n : nat) (u : string) (tbl tbl' : Table) : Prop :=
  exists r, nth_most_recent n u tbl = Some r /\
            rows_of u tbl' = newer_than (modified r) (rows_of u tbl).

(** What the pruning leaves of the rows of one user: with a row at
    offset [k] of the descending order, the rows newer than it. *)
Definition kept_rows (k : nat) (rows : list Row) : list Row :=
  match nth_error (order_by_modified_desc rows) k with
  | Some r => newer_than (modified r) rows
  | None => rows
  end.

(** Descending in [modified]. *)
Definition descending (l : list Row) : Prop :=
  StronglySorted (fun a b => (modified b <= modified a)%Z) l.

End Spec.
Import Spec.

(* ================================================================= *)
(** * A concrete table and a concrete site                             *)
(* ================================================================= *)

Module Examples.
Import RouteHistory.

Definition row_name (u : string) (i : nat) : string :=
  (u ++ "-" ++ NilEmpty.string_of_uint (Nat.to_uint i))%string.

(** [n] visits of [u], modified at the times [1 .. n]. *)
Definition visits (u : string) (n : nat) : Table :=
  map (fun i => mkRow (row_name u i) u "/app/home" (Z.of_nat i)) (seq 1 n).

(** One user just over the limit, one exactly at it. *)
Definition two_users : Table := visits "alice" 501 ++ visits "bob" 500.

(** A small site: three component files, a template engine whose
    templates print their source and the names bound in the context,
    and the front matter of the three files. *)
Import Jinja.

Definition card_body : string := "<div class='{{ class }}'>{{ title }}</div>".

Definition card_source : string :=
  ("---" ++ newline ++ "title: Card" ++ newline ++ "---" ++ newline
   ++ card_body)%string.

Definition broken_source : string :=
  ("---" ++ newline ++ "title: [Card" ++ newline ++ "---" ++ newline
   ++ card_body)%string.

Definition badge_source : string := "<b class='{{ class }}'>{{ label }}</b>".

Definition site_files (template_name : string) : result string :=
  if String.eqb template_name "templates/components/card.html"
  then Ok card_source
  else if String.eqb template_name "templates/components/broken.html"
  then Ok broken_source
  else if String.eqb template_name "templates/components/badge.html"
  then Ok badge_source
  else Raise (TemplateNotFound template_name).

Definition printing (source : string) : Template :=
  {| render := fun context =>
       Ok (source ++ " with " ++ String.concat "," (map fst context))%string |}.

Definition site_env : Environment :=
  {| loader_get_source := site_files;
     get_template := fun path => rbind (site_files path) (fun s => Ok (printing s));
     from_string := fun source => Ok (printing source) |}.

Definition site_frontmatter (source : string) : result FrontmatterResult :=
  if String.eqb source card_source then
    Ok {| fm_attributes := Some [("title", PyStr "Card")];
          fm_body := card_body;
          fm_frontmatter := (newline ++ "title: Card" ++ newline)%string |}
  else if String.eqb source broken_source then
    Raise (OtherException "yaml.parser.ParserError")
  else
    Ok {| fm_attributes := None; fm_body := EmptyString;
          fm_frontmatter := EmptyString |}.

Definition site : Framework :=
  {| local_jenv := site_env;
     Frontmatter_read := site_frontmatter;
     get_traceback := fun _ => "Traceback (most recent call last)" |}.

End Examples.

(* ================================================================= *)
(** * jinja.py: templates by path, and e-mail templates                *)
(* ================================================================= *)

Module JinjaEmail.
Import Jinja.
Local Open Scope py_scope.

(** [get_template(path)] *)
Definition get_template (fw : Framework) (path : string) : M Template :=
  jenv <- get_jenv fw ;;
  call (EvGetTemplate path) (Jinja.get_template jenv path).

(** [args or {}] *)
Definition args_or_empty (args : option dict) : dict :=
  match args with
  | Some (item :: items) => item :: items
  | _ => []
  end.

(** [get_email_from_template(name, args)]: the HTML message and the
    text message, the latter [None] when it has no template. *)
Definition get_email_from_template (fw : Framework) (name : string)
    (args : option dict) : M (string * option string) :=
  let args := args_or_empty args in
  message <- try_except
               (t <- get_template fw ("templates/emails/" ++ name ++ ".html")%string ;;
                call (EvRender args) (render t args))
               (fun e => if is_TemplateNotFound e then raise e else raise e) ;;
  text_content <- try_except
                    (t <- get_template fw ("templates/emails/" ++ name ++ ".txt")%string ;;
                     text <- call (EvRender args) (render t args) ;;
                     ret (Some text))
                    (fun e => if is_TemplateNotFound e then ret None else raise e) ;;
  ret (message, text_content).

End JinjaEmail.

(* ================================================================= *)
(** * Calls into the rest of the framework                             *)
(* ================================================================= *)

Module Frappe.

(** What the functions below reach outside their modules. *)
Record Site : Type := {
  framework : Jinja.Framework;
  (** [frappe._]: the message in the language of the user *)
  translate : string -> string;
  (** [e.lineno] of a [TemplateSyntaxError]; [exn] keeps the message *)
  lineno : exn -> Z;
  (** [frappe.session.user] *)
  session_user : string;
  (** [json.loads] and [json.dumps] *)
  json_loads : string -> result pyvalue;
  json_dumps : pyvalue -> string;
  (** [frappe.deferred_insert.deferred_insert] *)
  deferred_insert : string -> string -> result unit
}.

Inductive effect : Type :=
| Engine (ev : Jinja.event)
| Msgprint (msg : string)
| DeferredInsert (doctype : string) (records : string).

(** A computation: its effects in order, and how it ended. *)
Definition F (A : Type) : Type := list effect * result A.

Definition fret {A : Type} (a : A) : F A := ([], Ok a).
Definition fraise {A : Type} (e : exn) : F A := ([], Raise e).
Definition flift {A : Type} (r : result A) : F A := ([], r).
Definition fcall {A : Type} (ef : effect) (r : result A) : F A := ([ef], r).

Definition fbind {A B : Type} (m : F A) (k : A -> F B) : F B :=
  match m with
  | (t, Ok a) => let (t', r) := k a in (t ++ t', r)
  | (t, Raise e) => (t, Raise e)
  end.

Definition ftry {A : Type} (m : F A) (h : exn -> F A) : F A :=
  match m with
  | (t, Raise e) => let (t', r) := h e in (t ++ t', r)
  | (t, Ok a) => (t, Ok a)
  end.

(** A computation of jinja.py, run here. *)
Definition engine {A : Type} (m : Jinja.M A) : F A :=
  (map Engine (fst m), snd m).

Declare Scope frappe_scope.
Delimit Scope frappe_scope with frappe.
Notation "x <- m ;; k" := (fbind m (fun x => k))
  (at level 61, m at next level, right associativity) : frappe_scope.
Notation "m ;;; k" := (fbind m (fun _ => k))
  (at level 61, right associativity) : frappe_scope.
Local Open Scope frappe_scope.

Definition effects {A : Type} (m : F A) : list effect := fst m.
Definition ending {A : Type} (m : F A) : result A := snd m.

(** [str(n)] for an [int] *)
Definition str_of_int (n : Z) : string := NilEmpty.string_of_int (Z.to_int n).

(** [frappe.msgprint(msg)] *)
Definition msgprint (msg : string) : F unit := fcall (Msgprint msg) (Ok tt).

(** ** jinja.py: validate_template *)

Definition validate_template (site : Site) (html : string) : F unit :=
  jenv <- engine (Jinja.get_jenv (framework site)) ;;
  ftry
    (engine (Jinja.call (Jinja.EvFromString html) (Jinja.from_string jenv html)) ;;;
     fret tt)
    (fun e =>
       match e with
       | TemplateSyntaxError message =>
           msgprint ("Line " ++ str_of_int (lineno site e) ++ ": " ++ message)%string ;;;
           fraise (ValidationError None (translate site "Syntax error in template"))
       | _ => fraise e
       end).

(** ** route_history.py: deferred_insert_route_history *)

(** [for x in v]: the items a value gives when iterated. *)
Definition py_iter (v : pyvalue) : result (list pyvalue) :=
  match v with
  | PyList xs | PyTuple xs => Ok xs
  | PyDict items => Ok (map (fun kv => PyStr (fst kv)) items)
  | PyStr s => Ok (map (fun c => PyStr (String c EmptyString)) (list_ascii_of_string s))
  | PyNone | PyBool _ | PyInt _ => Raise (TypeError "object is not iterable")
  end.

(** [v.get(k)]: only a mapping has the method. *)
Definition py_get (v : pyvalue) (k : string) : result pyvalue :=
  match v with
  | PyDict items =>
      Ok (match dict_get k items with Some x => x | None => PyNone end)
  | _ => Raise (OtherException "AttributeError: object has no attribute 'get'")
  end.

(** The loop [for route_doc in routes: routes_record.append({...})]. *)
Fixpoint append_records (user : string) (routes : list pyvalue)
    (routes_record : list pyvalue) : result (list pyvalue) :=
  match routes with
  | [] => Ok routes_record
  | route_doc :: rest =>
      rbind (py_get route_doc "route") (fun route =>
      rbind (py_get route_doc "creation") (fun creation =>
      append_records user rest
        (routes_record ++ [PyDict [("user", PyStr user);
                                   ("route", route);
                                   ("creation", creation)]])))
  end.

Definition deferred_insert_route_history (site : Site) (routes : pyvalue)
  : F unit :=
  let routes_record : list pyvalue := [] in
  routes <- match routes with
            | PyStr s => flift (json_loads site s)
            | _ => fret routes
            end ;;
  items <- flift (py_iter routes) ;;
  routes_record <- flift (append_records (session_user site) items routes_record) ;;
  let records := json_dumps site (PyList routes_record) in
  fcall (DeferredInsert "Route History" records)
        (deferred_insert site "Route History" records).

End Frappe.

(* ================================================================= *)
(** * jinja.py: building the environment                               *)
(* ================================================================= *)

Module Assoc.
Section WithValues.
Context {V : Type}.

(** A [dict] with string keys and values of any one type, as the list
    of its items in insertion order. *)
Fixpoint get (k : string) (d : list (string * V)) : option V :=
  match d with
  | [] => None
  | (k', v) :: d' => if String.eqb k k' then Some v else get k d'
  end.

Fixpoint set (k : string) (v : V) (d : list (string * V)) : list (string * V) :=
  match d with
  | [] => [(k, v)]
  | (k', v') :: d' =>
      if String.eqb k k' then (k', v) :: d' else (k', v') :: set k v d'
  end.

Definition update (d other : list (string * V)) : list (string * V) :=
  fold_left (fun acc kv => set (fst kv) (snd kv) acc) other d.

End WithValues.
End Assoc.

Module Setup.

(** A function of Python, known by its dotted name. *)
Definition callable : Type := string.

Definition namespace : Type := list (string * callable).

(** The loaders of jinja2 that [get_jloader] builds. *)
#[warnings="-register-all"]
Inductive Loader : Type :=
| PackageLoader (package_name package_path : string)
| PrefixLoader (mapping : list (string * Loader))
| ChoiceLoader (loaders : list Loader).

(** The environment, as far as [get_jenv] sets it up. *)
Record Jenv : Type := {
  loader : Loader;
  filters : namespace;
  globals : namespace
}.

(** [frappe.local]: the two attributes that cache. *)
Record Local : Type := {
  local_jenv : option Jenv;
  local_jloader : option Loader
}.

(** What the installation says. *)
Record Installation : Type := {
  (** [frappe.local.site] *)
  site : option string;
  (** [frappe.flags.in_setup_help] *)
  in_setup_help : bool;
  (** [frappe.get_hooks('template_apps')] *)
  template_apps : list string;
  (** [frappe.local.flags.web_pages_apps], empty when not set *)
  web_pages_apps : list string;
  (** [frappe.get_installed_apps(sort=True)] *)
  installed_apps : list string;
  (** [frappe.get_hooks("jenv", {}).get(customization_type)] *)
  jenv_hooks : string -> option (list string);
  (** [frappe.get_attr] *)
  get_attr : string -> result callable;
  (** [get_safe_globals()] *)
  safe_globals : namespace;
  (** the filters and globals a new jinja2 environment has *)
  default_filters : namespace;
  default_globals : namespace
}.

(** ** get_jloader *)

(** The list [apps] at the end of the first half of [get_jloader]. *)
Definition loader_apps (inst : Installation) : list string :=
  let apps :=
    if in_setup_help inst then ["frappe"]
    else
      match template_apps inst with
      | [] =>
          let apps := match web_pages_apps inst with
                      | [] => installed_apps inst
                      | apps => apps
                      end in
          rev apps
      | apps => apps
      end in
  if negb (existsb (String.eqb "frappe") apps) then apps ++ ["frappe"]
  else apps.

Definition get_jloader (inst : Installation) (local : Local) : Local * Loader :=
  match local_jloader local with
  | Some jloader => (local, jloader)
  | None =>
      let apps := loader_apps inst in
      let jloader :=
        ChoiceLoader
          ([PrefixLoader
              (fold_left (fun d app => Assoc.set app (PackageLoader app ".") d)
                         apps [])]
           ++ map (fun app => PackageLoader app ".") apps) in
      ({| local_jenv := local_jenv local; local_jloader := Some jloader |},
       jloader)
  end.

(** ** get_jenv_customization *)

Fixpoint customization_loop (inst : Installation) (values : list string)
    (out : namespace) : result namespace :=
  match values with
  | [] => Ok out
  | value :: rest =>
      match rsplit value ":" with
      | [fn_name; fn_string] =>
          rbind (get_attr inst fn_string) (fun fn =>
          customization_loop inst rest (Assoc.set fn_name fn out))
      | _ => Raise (OtherException "ValueError: cannot unpack")
      end
  end.

Definition get_jenv_customization (inst : Installation)
    (customization_type : string) : result namespace :=
  let out : namespace := [] in
  match site inst with
  | None => Ok out
  | Some name =>
      if String.eqb name EmptyString then Ok out
      else
        match jenv_hooks inst customization_type with
        | None | Some [] => Ok out
        | Some values => customization_loop inst values out
        end
  end.

(** ** set_filters *)

Definition own_filters : namespace :=
  [("global_date_format", "frappe.utils.global_date_format");
   ("markdown", "frappe.utils.markdown");
   ("json", "frappe.as_json");
   ("get_shade", "frappe.website.utils.get_shade");
   ("len", "len");
   ("int", "frappe.utils.cint");
   ("str", "frappe.utils.cstr");
   ("flt", "frappe.utils.flt");
   ("abs_url", "frappe.website.utils.abs_url")].

(** [set_filters(jenv)], on the filters of [jenv]. *)
Definition set_filters (inst : Installation) (jenv_filters : namespace)
  : result namespace :=
  let jenv_filters := Assoc.update jenv_filters own_filters in
  if in_setup_help inst then Ok jenv_filters
  else
    rbind (get_jenv_customization inst "filters") (fun custom =>
    Ok (Assoc.update jenv_filters custom)).

(** ** get_jenv *)

Definition own_globals : namespace :=
  [("component", "frappe.utils.jinja.component");
   ("c", "frappe.utils.jinja.component");
   ("resolve_class", "frappe.utils.jinja.resolve_class");
   ("inspect", "frappe.utils.jinja.inspect")].

Definition get_jenv (inst : Installation) (local : Local)
  : Local * result Jenv :=
  match local_jenv local with
  | Some jenv => (local, Ok jenv)
  | None =>
      let (local, jloader) := get_jloader inst local in
      match set_filters inst (default_filters inst) with
      | Raise e => (local, Raise e)
      | Ok jenv_filters =>
          let jenv_globals := Assoc.update (default_globals inst) (safe_globals inst) in
          match get_jenv_customization inst "methods" with
          | Raise e => (local, Raise e)
          | Ok methods =>
              let jenv_globals := Assoc.update jenv_globals methods in
              let jenv_globals := Assoc.update jenv_globals own_globals in
              let jenv := {| loader := jloader; filters := jenv_filters;
                             globals := jenv_globals |} in
              ({| local_jenv := Some jenv;
                  local_jloader := local_jloader local |},
               Ok jenv)
          end
      end
  end.

End Setup.

(* ================================================================= *)
(** * Further vocabulary                                               *)
(* ================================================================= *)

Module Behaviour.
Import RouteHistory.

(** Whether the pruning of [tbl] leaves the row [r]: it does unless the
    user of [r] has a row at offset 500 of the descending order that is
    at least as new as [r]. *)
Definition survives (tbl : Table) (r : Row) : bool :=
  match nth_error (order_by_modified_desc (rows_of (user r) tbl)) 500 with
  | Some b => negb (modified r <=? modified b)%Z
  | None => true
  end.

(** The first and the last character of a string. *)
Definition first_char (s : string) : option ascii :=
  match s with
  | EmptyString => None
  | String c _ => Some c
  end.

Fixpoint last_char (s : string) : option ascii :=
  match s with
  | EmptyString => None
  | String c EmptyString => Some c
  | String _ s' => last_char s'
  end.

(** No whitespace at either end. *)
Definition trimmed (s : string) : Prop :=
  (forall c, first_char s = Some c -> isspace c = false) /\
  (forall c, last_char s = Some c -> isspace c = false).

(** A value that is neither [None], a string nor a container. *)
Definition is_scalar (v : pyvalue) : Prop :=
  match v with
  | PyBool _ | PyInt _ => True
  | _ => False
  end.

(** A list, a tuple or a mapping. *)
Definition is_container (v : pyvalue) : Prop :=
  match v with
  | PyList _ | PyTuple _ | PyDict _ => True
  | _ => False
  end.

(** Where the two templates of an e-mail are looked for. *)
Definition email_html_path (name : string) : string :=
  ("templates/emails/" ++ name ++ ".html")%string.

Definition email_text_path (name : string) : string :=
  ("templates/emails/" ++ name ++ ".txt")%string.

(** Loading a template by path and rendering it, without the trace. *)
Definition load_and_render (fw : Jinja.Framework) (path : string)
    (context : dict) : result string :=
  rbind (Jinja.get_template (Jinja.local_jenv fw) path)
        (fun t => Jinja.render t context).

Definition is_mapping (v : pyvalue) : Prop :=
  match v with
  | PyDict _ => True
  | _ => False
  end.

(** The value of a key in a route entry, [None] when it has none. *)
Definition field (doc : pyvalue) (k : string) : pyvalue :=
  match doc with
  | PyDict items =>
      match dict_get k items with Some x => x | None => PyNone end
  | _ => PyNone
  end.

(** The record written for a route entry on behalf of [user]. *)
Definition record_for (user : string) (doc : pyvalue) : pyvalue :=
  PyDict [("user", PyStr user);
          ("route", field doc "route");
          ("creation", field doc "creation")].

(** How often a character occurs in a string. *)
Fixpoint count_char (c : ascii) (s : string) : nat :=
  match s with
  | EmptyString => 0
  | String x s' => (if Ascii.eqb x c then 1 else 0) + count_char c s'
  end.

(** The two halves of a hook value [name:reference]. *)
Definition hook_name (value : string) : string :=
  List.hd EmptyString (rsplit value ":").

Definition hook_ref (value : string) : string :=
  List.last (rsplit value ":") EmptyString.

(** The reference that the last value for [name] gives. *)
Definition registered (values : list string) (name : string) : option string :=
  option_map hook_ref
    (find (fun value => String.eqb (hook_name value) name) (rev values)).

(** The value of [name] in the first of the layers that has it. *)
Fixpoint first_of {V : Type} (layers : list (list (string * V)))
    (name : string) : option V :=
  match layers with
  | [] => None
  | layer :: rest =>
      match Assoc.get name layer with
      | Some v => Some v
      | None => first_of rest name
      end
  end.

Definition keys_once {V : Type} (d : list (string * V)) : Prop :=
  NoDup (map fst d).

End Behaviour.
Import Behaviour.

Module MoreExamples.
Import RouteHistory.

(** [n] rows of [u] written in one batch: all modified at time [t]. *)
Definition batch (u : string) (n : nat) (t : Z) : Table :=
  map (fun i => mkRow (Examples.row_name u i) u "/app/todo" t) (seq 1 n).

(** A user whose 501 rows come from one import, and a second user. *)
Definition after_import : Table :=
  batch "carol" 501 1700000000 ++ Examples.visits "dave" 3.

(** A site whose template engine refuses a source that opens an
    expression and does not close it. *)
Definition checking (source : string) : result Jinja.Template :=
  if str_in "{{" source && negb (str_in "}}" source)
  then Raise (TemplateSyntaxError "unexpected end of template")
  else Ok (Examples.printing source).

Definition checking_site : Jinja.Framework :=
  {| Jinja.local_jenv :=
       {| Jinja.loader_get_source := Examples.site_files;
          Jinja.get_template := fun path => rbind (Examples.site_files path) checking;
          Jinja.from_string := checking |};
     Jinja.Frontmatter_read := Examples.site_frontmatter;
     Jinja.get_traceback := fun _ => "Traceback (most recent call last)" |}.

(** A site with e-mail templates: [welcome] has an HTML template
    only, [digest] has both and its text template does not compile. *)
Definition mail_files (path : string) : result string :=
  if String.eqb path "templates/emails/welcome.html" then Ok "<p>Welcome {{ name }}</p>"
  else if String.eqb path "templates/emails/digest.html" then Ok "<p>{{ count }} new</p>"
  else if String.eqb path "templates/emails/digest.txt" then Ok "{{ count new"
  else Raise (TemplateNotFound path).

Definition mail_site : Jinja.Framework :=
  {| Jinja.local_jenv :=
       {| Jinja.loader_get_source := mail_files;
          Jinja.get_template := fun path => rbind (mail_files path) checking;
          Jinja.from_string := checking |};
     Jinja.Frontmatter_read := Examples.site_frontmatter;
     Jinja.get_traceback := fun _ => "Traceback (most recent call last)" |}.

(** A site for the functions that reach into the framework: JSON is
    read for two texts, and written as a count of the records. *)
Definition two_routes : pyvalue :=
  PyList [PyDict [("route", PyStr "/app/todo"); ("creation", PyStr "2021-06-01 10:00:00");
                  ("user", PyStr "Administrator")];
          PyDict [("route", PyStr "/app/note")]].

Definition desk : Frappe.Site :=
  {| Frappe.framework := checking_site;
     Frappe.translate := fun msg => msg;
     Frappe.lineno := fun _ => 1%Z;
     Frappe.session_user := "erin@example.com";
     Frappe.json_loads := fun s =>
       if String.eqb s "[two routes]" then Ok two_routes
       else if String.eqb s "[]" then Ok (PyList [])
       else Raise (OtherException "json.decoder.JSONDecodeError");
     Frappe.json_dumps := fun v =>
       match v with
       | PyList xs => ("records: " ++ NilEmpty.string_of_uint (Nat.to_uint (List.length xs)))%string
       | _ => "value"
       end;
     Frappe.deferred_insert := fun _ _ => Ok tt |}.

(** An installation with two apps; the second registers a method
    under the name of a safe global, one under the name [component],
    and a filter under the name of a built-in one. *)
Definition bench : Setup.Installation :=
  {| Setup.site := Some "site1.local";
     Setup.in_setup_help := false;
     Setup.template_apps := [];
     Setup.web_pages_apps := [];
     Setup.installed_apps := ["frappe"; "erpnext"];
     Setup.jenv_hooks := fun customization_type =>
       if String.eqb customization_type "methods"
       then Some ["fmt_money:erpnext.utils.fmt_money";
                  "component:erpnext.utils.component"]
       else if String.eqb customization_type "filters"
       then Some ["json:erpnext.utils.to_json"]
       else None;
     Setup.get_attr := fun ref => Ok ref;
     Setup.safe_globals := [("frappe", "frappe");
                            ("fmt_money", "frappe.utils.fmt_money")];
     Setup.default_filters := [("upper", "jinja2.filters.do_upper")];
     Setup.default_globals := [("range", "range")] |}.

(** The same installation with a hook value that lacks its colon. *)
Definition bench_with_bad_hook : Setup.Installation :=
  {| Setup.site := Some "site1.local";
     Setup.in_setup_help := false;
     Setup.template_apps := [];
     Setup.web_pages_apps := [];
     Setup.installed_apps := ["frappe"; "erpnext"];
     Setup.jenv_hooks := fun customization_type =>
       if String.eqb customization_type "methods"
       then Some ["fmt_money:erpnext.utils.fmt_money"; "erpnext.utils.component"]
       else None;
     Setup.get_attr := fun ref => Ok ref;
     Setup.safe_globals := [("frappe", "frappe")];
     Setup.default_filters := [("upper", "jinja2.filters.do_upper")];
     Setup.default_globals := [("range", "range")] |}.

(** [frappe.local] before the first request. *)
Definition fresh : Setup.Local :=
  {| Setup.local_jenv := None; Setup.local_jloader := None |}.

End MoreExamples.

(* ================================================================= *)
(** * Properties of route_history.py                                   *)
(* ================================================================= *)

Section RouteHistoryFacts.
Import RouteHistory.

Lemma insert_desc_perm (r : Row) (l : list Row) :
  Permutation (insert_desc r l) (r :: l).
Proof.
  induction l as [|x l IH]; simpl.
  - apply Permutation_refl.
  - destruct (modified x <=? modified r)%Z.
    + apply Permutation_refl.
    + eapply perm_trans; [apply perm_skip, IH | apply perm_swap].
Qed.

Lemma order_by_perm (l : list Row) :
  Permutation (order_by_modified_desc l) l.
Proof.
  induction l as [|r l IH]; simpl.
  - constructor.
  - eapply perm_trans; [apply insert_desc_perm | apply perm_skip, IH].
Qed.

Lemma order_by_length (l : list Row) :
  List.length (order_by_modified_desc l) = List.length l.
Proof. apply Permutation_length, order_by_perm. Qed.

Lemma insert_desc_descending (r : Row) (l : list Row) :
  descending l -> descending (insert_desc r l).
Proof.
  unfold descending.
  induction l as [|x l IH]; intros Hl; simpl.
  - repeat constructor.
  - destruct (modified x <=? modified r)%Z eqn:E.
    + apply Z.leb_le in E.
      constructor; [exact Hl|].
      inversion Hl as [|? ? Hl' Hx]; subst.
      constructor; [exact E|].
      rewrite Forall_forall in *. intros y Hy.
      specialize (Hx y Hy). lia.
    + apply Z.leb_gt in E.
      inversion Hl as [|? ? Hl' Hx]; subst.
      constructor; [apply IH; exact Hl'|].
      rewrite Forall_forall in *. intros y Hy.
      apply (Permutation_in _ (insert_desc_perm r l)) in Hy.
      destruct Hy as [<-|Hy]; [lia | apply Hx, Hy].
Qed.

Lemma order_by_descending (l : list Row) :
  descending (order_by_modified_desc l).
Proof.
  induction l as [|r l IH]; simpl.
  - constructor.
  - apply insert_desc_descending, IH.
Qed.

Lemma sorted_ge_unique (s1 s2 : list Z) :
  Permutation s1 s2 ->
  StronglySorted Z.ge s1 -> StronglySorted Z.ge s2 -> s1 = s2.
Proof.
  revert s2. induction s1 as [|x s1 IH]; intros s2 HP S1 S2.
  - apply Permutation_nil in HP. now subst.
  - destruct s2 as [|y s2].
    + apply Permutation_sym, Permutation_nil in HP. discriminate.
    + inversion S1 as [|? ? S1' Hx]; subst.
      inversion S2 as [|? ? S2' Hy]; subst.
      rewrite Forall_forall in Hx, Hy.
      assert (x = y).
      { assert (I1 : In x (y :: s2))
          by (eapply Permutation_in; [exact HP | now left]).
        assert (I2 : In y (x :: s1))
          by (eapply Permutation_in;
              [apply Permutation_sym; exact HP | now left]).
        destruct I1 as [->|I1]; [reflexivity|].
        destruct I2 as [->|I2]; [reflexivity|].
        specialize (Hx _ I2). specialize (Hy _ I1). lia. }
      subst y. f_equal. apply IH; auto.
      eapply Permutation_cons_inv; exact HP.
Qed.

Lemma descending_timestamps (l : list Row) :
  descending l -> StronglySorted Z.ge (map modified l).
Proof.
  unfold descending.
  induction l as [|x l IH]; intros S; simpl.
  - constructor.
  - inversion S as [|? ? S' Hx]; subst. constructor; [auto|].
    rewrite Forall_forall in *. intros z Hz.
    apply in_map_iff in Hz. destruct Hz as [y [<- Hy]].
    specialize (Hx y Hy). lia.
Qed.

(** Whatever order the database gives to rows of equal [modified], the
    timestamps come out the same: a descending arrangement of the rows
    has one list of timestamps. *)
Lemma descending_timestamps_unique (l1 l2 : list Row) :
  Permutation l1 l2 -> descending l1 -> descending l2 ->
  map modified l1 = map modified l2.
Proof.
  intros HP H1 H2.
  apply sorted_ge_unique; auto using descending_timestamps.
  apply Permutation_map, HP.
Qed.

(** ** Counting the rows above a boundary *)

Lemma filter_length_le {A : Type} (f : A -> bool) (l : list A) :
  List.length (filter f l) <= List.length l.
Proof.
  induction l as [|x l IH]; simpl; [lia|].
  destruct (f x); simpl; lia.
Qed.

Lemma filter_length_perm {A : Type} (f : A -> bool) (l l' : list A) :
  Permutation l l' ->
  List.length (filter f l) = List.length (filter f l').
Proof.
  induction 1 as [| x l l' _ IH | x y l | l l' l'' _ IH1 _ IH2]; simpl.
  - reflexivity.
  - destruct (f x); simpl; lia.
  - destruct (f x), (f y); simpl; lia.
  - lia.
Qed.

Lemma filter_none {A : Type} (f : A -> bool) (l : list A) :
  (forall x, In x l -> f x = false) -> filter f l = [].
Proof.
  induction l as [|x l IH]; intros H; simpl; [reflexivity|].
  rewrite (H x (or_introl eq_refl)). apply IH. intros y Hy. apply H. now right.
Qed.

(** In a descending list, the rows strictly newer than the row at
    offset [k] stand before that offset. *)
Lemma newer_than_offset (l : list Row) (k : nat) (r : Row) :
  descending l -> nth_error l k = Some r ->
  List.length (newer_than (modified r) l) <= k.
Proof.
  unfold descending, newer_than. revert k.
  induction l as [|x l IH]; intros k S Hk.
  - destruct k; discriminate.
  - inversion S as [|? ? S' Hx]; subst.
    destruct k as [|k]; simpl in Hk.
    + injection Hk as ->.
      rewrite filter_none; [simpl; lia|].
      intros y [<-|Hy].
      * apply negb_false_iff, Z.leb_le. lia.
      * rewrite Forall_forall in Hx.
        apply negb_false_iff, Z.leb_le, Hx, Hy.
    + specialize (IH k S' Hk). simpl.
      destruct (negb (modified x <=? modified r)%Z); simpl; lia.
Qed.

Lemma kept_rows_length (k : nat) (rows : list Row) :
  k < List.length rows -> List.length (kept_rows k rows) <= k.
Proof.
  intros Hlen. unfold kept_rows.
  destruct (nth_error (order_by_modified_desc rows) k) as [r|] eqn:E.
  - unfold newer_than.
    rewrite (filter_length_perm _ _ _ (Permutation_sym (order_by_perm rows))).
    apply newer_than_offset; [apply order_by_descending | exact E].
  - apply nth_error_None in E. rewrite order_by_length in E. lia.
Qed.

Lemma kept_rows_short (k : nat) (rows : list Row) :
  List.length rows <= k -> kept_rows k rows = rows.
Proof.
  intros Hlen. unfold kept_rows.
  destruct (nth_error (order_by_modified_desc rows) k) as [r|] eqn:E;
    [|reflexivity].
  assert (k < List.length (order_by_modified_desc rows))
    by (apply nth_error_Some; congruence).
  rewrite order_by_length in *. lia.
Qed.

(** ** The database primitives on the rows of one user *)

Lemma rows_of_db_delete_same (m : Z) (u : string) (tbl : Table) :
  rows_of u (db_delete m u tbl) = newer_than m (rows_of u tbl).
Proof.
  unfold rows_of, db_delete, newer_than.
  induction tbl as [|r tbl IH]; simpl; [reflexivity|].
  destruct (String.eqb (user r) u) eqn:Eu; simpl.
  - destruct (modified r <=? m)%Z; simpl.
    + exact IH.
    + rewrite Eu. f_equal. exact IH.
  - rewrite andb_false_r. simpl. rewrite Eu. exact IH.
Qed.

Lemma rows_of_db_delete_other (m : Z) (u u' : string) (tbl : Table) :
  u' <> u -> rows_of u' (db_delete m u tbl) = rows_of u' tbl.
Proof.
  intros Hne. unfold rows_of, db_delete.
  induction tbl as [|r tbl IH]; simpl; [reflexivity|].
  destruct (String.eqb (user r) u') eqn:Eu'; simpl.
  - apply String.eqb_eq in Eu'.
    assert (Eu : String.eqb (user r) u = false)
      by (apply String.eqb_neq; congruence).
    rewrite Eu, andb_false_r. simpl.
    apply String.eqb_eq in Eu'. rewrite Eu'. f_equal. exact IH.
  - destruct (negb ((modified r <=? m)%Z && String.eqb (user r) u)); simpl.
    + rewrite Eu'. exact IH.
    + exact IH.
Qed.

Lemma one_from_offset {A : Type} (l : list A) (k : nat) :
  firstn 1 (skipn k l) =
  match nth_error l k with Some x => [x] | None => [] end.
Proof.
  revert l. induction k as [|k IH]; intros [|x l]; simpl; try reflexivity.
  apply IH.
Qed.

Lemma flush_user_eq (tbl : Table) (u : string) :
  flush_user tbl u =
  match nth_error (order_by_modified_desc (rows_of u tbl)) 500 with
  | Some r => Ok (db_delete (modified r) u tbl)
  | None => Raise (IndexError "list index out of range")
  end.
Proof.
  unfold flush_user, get_all. rewrite one_from_offset.
  destruct (nth_error (order_by_modified_desc (rows_of u tbl)) 500);
    reflexivity.
Qed.

(** The answer of [get_all] does not depend on the order the database
    gives to rows of equal [modified]. *)
Lemma get_all_any_tie_order (u : string) (limit limit_start : nat)
    (tbl : Table) (arranged : list Row) :
  Permutation arranged (rows_of u tbl) -> descending arranged ->
  map modified (firstn limit (skipn limit_start arranged))
  = get_all u limit limit_start tbl.
Proof.
  intros HP Hd. unfold get_all.
  rewrite <- !firstn_map, <- !skipn_map. do 2 f_equal.
  apply descending_timestamps_unique; [|exact Hd|apply order_by_descending].
  eapply perm_trans; [exact HP | apply Permutation_sym, order_by_perm].
Qed.

(** ** The loop over the users *)

Lemma for_users_spec (users : list string) :
  forall tbl : Table,
    NoDup users ->
    (forall u, In u users -> 500 < List.length (rows_of u tbl)) ->
    exists tbl',
      for_users users tbl = Ok tbl' /\
      (forall u, In u users -> rows_of u tbl' = kept_rows 500 (rows_of u tbl)) /\
      (forall u, ~ In u users -> rows_of u tbl' = rows_of u tbl).
Proof.
  induction users as [|u0 rest IH]; intros tbl ND Hbig.
  - exists tbl. split; [reflexivity|]. split; [intros u []|reflexivity].
  - inversion ND as [|? ? Hnotin ND']; subst.
    cbn [for_users]. rewrite flush_user_eq.
    destruct (nth_error (order_by_modified_desc (rows_of u0 tbl)) 500)
      as [r|] eqn:E.
    2:{ apply nth_error_None in E. rewrite order_by_length in E.
        specialize (Hbig u0 (or_introl eq_refl)). lia. }
    cbn [rbind].
    set (tbl1 := db_delete (modified r) u0 tbl).
    assert (Hother : forall u, u <> u0 -> rows_of u tbl1 = rows_of u tbl)
      by (intros u Hu; apply rows_of_db_delete_other; exact Hu).
    destruct (IH tbl1 ND') as [tbl' [Hrun [Hin Hout]]].
    { intros u Hu. rewrite Hother; [apply Hbig; now right|].
      intros ->. contradiction. }
    exists tbl'. split; [exact Hrun|]. split.
    + intros u [<-|Hu].
      * rewrite (Hout u0 Hnotin). unfold tbl1.
        rewrite rows_of_db_delete_same. unfold kept_rows. now rewrite E.
      * rewrite (Hin u Hu), Hother; [reflexivity|].
        intros ->. contradiction.
    + intros u Hu. rewrite Hout by (intros H; apply Hu; now right).
      apply Hother. intros ->. apply Hu. now left.
Qed.

Lemma rows_of_user (u : string) (tbl : Table) (r : Row) :
  In r (rows_of u tbl) <-> In r tbl /\ user r = u.
Proof.
  unfold rows_of. rewrite filter_In. now rewrite String.eqb_eq.
Qed.

Lemma sql_users_over_spec (limit : nat) (tbl : Table) (u : string) :
  In u (sql_users_over limit tbl) <-> limit < List.length (rows_of u tbl).
Proof.
  unfold sql_users_over. rewrite filter_In, nodup_In, Nat.ltb_lt.
  split; [tauto|]. intros H. split; [|exact H].
  destruct (rows_of u tbl) as [|r l] eqn:E; [simpl in H; lia|].
  assert (Hr : In r (rows_of u tbl)) by (rewrite E; now left).
  apply rows_of_user in Hr. destruct Hr as [Hr <-].
  now apply in_map.
Qed.

(** [flush_old_route_records] always succeeds, and leaves of every
    user's rows those that [kept_rows] describes. *)
Lemma flush_spec (tbl : Table) :
  exists tbl',
    flush_old_route_records tbl = Ok tbl' /\
    forall u, rows_of u tbl' = kept_rows 500 (rows_of u tbl).
Proof.
  unfold flush_old_route_records, records_to_keep_limit.
  destruct (for_users_spec (sql_users_over 500 tbl) tbl)
    as [tbl' [Hrun [Hin Hout]]].
  - unfold sql_users_over. apply NoDup_filter, NoDup_nodup.
  - intros u Hu. now apply sql_users_over_spec.
  - exists tbl'. split; [exact Hrun|]. intros u.
    destruct (in_dec string_dec u (sql_users_over 500 tbl)) as [Hu|Hu].
    + apply Hin, Hu.
    + rewrite (Hout u Hu). symmetry. apply kept_rows_short.
      rewrite sql_users_over_spec in Hu. lia.
Qed.

(** ** The retention contract *)

(** C1, as the specification words it, does not hold: with 501 rows at
    the times 1 .. 501 the row of rank 500 is the one modified at time 2,
    and the call keeps that row; it deletes the row of time 1 only. *)
Lemma flush_boundary_is_not_rank_500 :
  ~ (forall (tbl : Table) (u : string),
        500 < List.length (rows_of u tbl) ->
        exists tbl', flush_old_route_records tbl = Ok tbl' /\
                     deletes_up_to_rank 500 u tbl tbl').
Proof.
  intros H.
  destruct (H (Examples.visits "alice" 501) "alice")
    as [tbl' [Hrun [r [Hr Hrows]]]].
  - apply Nat.ltb_lt. vm_compute. reflexivity.
  - vm_compute in Hr. injection Hr as <-.
    vm_compute in Hrun. injection Hrun as <-.
    apply (f_equal (@List.length Row)) in Hrows.
    vm_compute in Hrows. discriminate Hrows.
Qed.

(** C1, amended: for every user with more than 500 rows, the call
    deletes exactly the rows of that user modified at or before the row
    of rank 501, the row at offset 500 of the descending order. *)
Theorem flush_deletes_up_to_rank_501 (tbl : Table) (u : string) :
  500 < List.length (rows_of u tbl) ->
  exists tbl', flush_old_route_records tbl = Ok tbl' /\
               deletes_up_to_rank 501 u tbl tbl'.
Proof.
  intros Hbig.
  destruct (flush_spec tbl) as [tbl' [Hrun Hrows]].
  exists tbl'. split; [exact Hrun|].
  unfold deletes_up_to_rank, nth_most_recent.
  change (501 - 1) with 500.
  specialize (Hrows u). unfold kept_rows in Hrows.
  destruct (nth_error (order_by_modified_desc (rows_of u tbl)) 500)
    as [r|] eqn:E.
  - exists r. split; [reflexivity | exact Hrows].
  - apply nth_error_None in E. rewrite order_by_length in E. lia.
Qed.

Lemma flush_deletes_up_to_rank_501_witness :
  500 < List.length (rows_of "alice" Examples.two_users) /\
  exists tbl', flush_old_route_records Examples.two_users = Ok tbl' /\
               deletes_up_to_rank 501 "alice" Examples.two_users tbl'.
Proof.
  assert (Hbig : 500 < List.length (rows_of "alice" Examples.two_users))
    by (apply Nat.ltb_lt; vm_compute; reflexivity).
  split; [exact Hbig|].
  exact (flush_deletes_up_to_rank_501 Examples.two_users "alice" Hbig).
Defined.

(** C4: a user with more than 500 rows is left with at most 500, and no
    row that stays is older than a row of that user that went. *)
Theorem flush_keeps_the_newest (tbl : Table) (u : string) :
  500 < List.length (rows_of u tbl) ->
  exists tbl',
    flush_old_route_records tbl = Ok tbl' /\
    List.length (rows_of u tbl') <= 500 /\
    forall kept deleted : Row,
      In kept (rows_of u tbl') ->
      In deleted (rows_of u tbl) -> ~ In deleted (rows_of u tbl') ->
      (modified deleted <= modified kept)%Z.
Proof.
  intros Hbig.
  destruct (flush_spec tbl) as [tbl' [Hrun Hrows]].
  exists tbl'. split; [exact Hrun|].
  specialize (Hrows u). rewrite Hrows. split.
  - apply kept_rows_length, Hbig.
  - unfold kept_rows.
    destruct (nth_error (order_by_modified_desc (rows_of u tbl)) 500)
      as [r|]; [|intros kept deleted _ Hd Hnd; contradiction].
    unfold newer_than. intros kept deleted Hk Hd Hnd.
    apply filter_In in Hk. destruct Hk as [_ Hk].
    apply negb_true_iff, Z.leb_gt in Hk.
    destruct (modified deleted <=? modified r)%Z eqn:Ed.
    + apply Z.leb_le in Ed. lia.
    + exfalso. apply Hnd, filter_In. split; [exact Hd|]. now rewrite Ed.
Qed.

Lemma flush_keeps_the_newest_witness :
  500 < List.length (rows_of "alice" Examples.two_users) /\
  exists tbl',
    flush_old_route_records Examples.two_users = Ok tbl' /\
    List.length (rows_of "alice" tbl') <= 500 /\
    forall kept deleted : Row,
      In kept (rows_of "alice" tbl') ->
      In deleted (rows_of "alice" Examples.two_users) ->
      ~ In deleted (rows_of "alice" tbl') ->
      (modified deleted <= modified kept)%Z.
Proof.
  assert (Hbig : 500 < List.length (rows_of "alice" Examples.two_users))
    by (apply Nat.ltb_lt; vm_compute; reflexivity).
  split; [exact Hbig|].
  exact (flush_keeps_the_newest Examples.two_users "alice" Hbig).
Defined.

(** C5: the rows of a user with at most 500 rows, 500 included, are
    after the call what they were before it. *)
Theorem flush_leaves_small_users (tbl : Table) (u : string) :
  List.length (rows_of u tbl) <= 500 ->
  exists tbl', flush_old_route_records tbl = Ok tbl' /\
               rows_of u tbl' = rows_of u tbl.
Proof.
  intros Hsmall.
  destruct (flush_spec tbl) as [tbl' [Hrun Hrows]].
  exists tbl'. split; [exact Hrun|].
  rewrite Hrows. apply kept_rows_short, Hsmall.
Qed.

Lemma flush_leaves_small_users_witness :
  List.length (rows_of "bob" Examples.two_users) <= 500 /\
  exists tbl', flush_old_route_records Examples.two_users = Ok tbl' /\
               rows_of "bob" tbl' = rows_of "bob" Examples.two_users.
Proof.
  assert (Hsmall : List.length (rows_of "bob" Examples.two_users) <= 500)
    by (apply Nat.leb_le; vm_compute; reflexivity).
  split; [exact Hsmall|].
  exact (flush_leaves_small_users Examples.two_users "bob" Hsmall).
Defined.

End RouteHistoryFacts.

(* ================================================================= *)
(** * Strings                                                          *)
(* ================================================================= *)

Section StringFacts.

Lemma append_empty_r (s : string) : (s ++ EmptyString)%string = s.
Proof. induction s as [|c s IH]; simpl; [reflexivity | now rewrite IH]. Qed.

Lemma append_assoc (a b c : string) :
  ((a ++ b) ++ c)%string = (a ++ (b ++ c))%string.
Proof. induction a as [|x a IH]; simpl; [reflexivity | now rewrite IH]. Qed.

Lemma prefix_spec (p s : string) :
  String.prefix p s = true <-> exists b, s = (p ++ b)%string.
Proof.
  revert p. induction s as [|c s IH]; intros [|x p]; simpl.
  - split; [intros _; now exists EmptyString | reflexivity].
  - split; [discriminate | intros [b Hb]; discriminate].
  - split; [intros _; now exists (String c s) | reflexivity].
  - destruct (ascii_dec x c) as [->|Hne].
    + rewrite IH. split; intros [b Hb]; exists b; congruence.
    + split; [discriminate | intros [b Hb]; congruence].
Qed.

Lemma str_in_spec (sub s : string) :
  str_in sub s = true <-> contains sub s.
Proof.
  unfold contains. induction s as [|c s IH]; cbn [str_in].
  - rewrite orb_false_r, prefix_spec. split.
    + intros [b Hb]. now exists EmptyString, b.
    + intros [[|x a] [b Hb]]; [now exists b | discriminate].
  - rewrite orb_true_iff, prefix_spec, IH. split.
    + intros [[b Hb] | [a [b Hb]]].
      * now exists EmptyString, b.
      * exists (String c a), b. simpl. now rewrite Hb.
    + intros [[|x a] [b Hb]].
      * left. now exists b.
      * right. exists a, b. simpl in Hb. congruence.
Qed.

Lemma str_in_false (sub s : string) :
  str_in sub s = false <-> ~ contains sub s.
Proof.
  rewrite <- str_in_spec. destruct (str_in sub s); split; congruence.
Qed.

(** *** [rsplit] *)

Lemma rsplit_not_nil (s : string) (sep : ascii) : rsplit s sep <> [].
Proof.
  induction s as [|c s IH]; simpl; [discriminate|].
  destruct (Ascii.eqb c sep); [discriminate|].
  destruct (rsplit s sep); [contradiction | discriminate].
Qed.

Lemma rsplit_no_sep (s : string) (sep : ascii) :
  ~ contains (String sep EmptyString) s -> rsplit s sep = [s].
Proof.
  induction s as [|c s IH]; intros Hno; simpl; [reflexivity|].
  destruct (Ascii.eqb c sep) eqn:E.
  - apply Ascii.eqb_eq in E. subst c. exfalso. apply Hno.
    now exists EmptyString, s.
  - rewrite IH; [reflexivity|].
    intros [a [b Hb]]. apply Hno. exists (String c a), b.
    simpl. now rewrite Hb.
Qed.

Lemma rsplit_app (a b : string) (sep : ascii) :
  rsplit (a ++ String sep b)%string sep = rsplit a sep ++ rsplit b sep.
Proof.
  induction a as [|c a IH]; simpl.
  - now rewrite Ascii.eqb_refl.
  - destruct (Ascii.eqb c sep); [now rewrite IH|].
    rewrite IH. pose proof (rsplit_not_nil a sep) as Hne.
    destruct (rsplit a sep); [contradiction | reflexivity].
Qed.

Lemma last_app_nonempty {A : Type} (l1 l2 : list A) (d : A) :
  l2 <> [] -> List.last (l1 ++ l2) d = List.last l2 d.
Proof.
  intros Hne. induction l1 as [|x l1 IH]; simpl; [reflexivity|].
  destruct (l1 ++ l2) eqn:E; [|exact IH].
  apply app_eq_nil in E. destruct E as [_ E]. contradiction.
Qed.

(** The last piece of the split is the text after the last separator. *)
Lemma rsplit_last (pre ext : string) (sep : ascii) :
  ~ contains (String sep EmptyString) ext ->
  List.last (rsplit (pre ++ String sep ext)%string sep) EmptyString = ext.
Proof.
  intros Hno. rewrite rsplit_app, (rsplit_no_sep ext sep Hno).
  rewrite last_app_nonempty by discriminate. reflexivity.
Qed.

(** A string with a separator splits at the last one. *)
Lemma last_sep_decompose (s : string) (sep : ascii) :
  contains (String sep EmptyString) s ->
  exists pre ext, s = (pre ++ String sep ext)%string /\
                  ~ contains (String sep EmptyString) ext.
Proof.
  induction s as [|c s IH]; intros Hc.
  - destruct Hc as [[|x a] [b Hb]]; discriminate.
  - destruct (str_in (String sep EmptyString) s) eqn:E.
    + apply str_in_spec in E. destruct (IH E) as [pre [ext [-> Hno]]].
      now exists (String c pre), ext.
    + apply str_in_false in E.
      destruct Hc as [[|x a] [b Hb]]; simpl in Hb.
      * injection Hb as -> ->. now exists EmptyString, b.
      * injection Hb as -> ->. exfalso. apply E. now exists a, b.
Qed.

End StringFacts.

(* ================================================================= *)
(** * Properties of jinja.py                                           *)
(* ================================================================= *)

Section JinjaFacts.
Import Jinja.

(** ** guess_is_path *)

Lemma recognised_extension_spec (ext : string) :
  existsb (String.eqb ext) ["html"; "css"; "scss"; "py"] = true <->
  recognised_extension ext.
Proof.
  unfold recognised_extension. cbn [existsb].
  rewrite !orb_true_iff, !String.eqb_eq. intuition discriminate.
Qed.

(** C9: [guess_is_path] answers true exactly for the strings without a
    newline that contain a dot and whose text after the last dot is one
    of html, css, scss and py; so it answers false for every string with
    a newline and for every string with another extension. *)
Theorem guess_is_path_iff (template : string) :
  (guess_is_path template = true <->
     ~ contains newline template /\ contains "." template /\
     exists ext, text_after_last_dot template ext /\ recognised_extension ext)
  /\ (contains newline template -> guess_is_path template = false)
  /\ (forall ext, text_after_last_dot template ext ->
                  ~ recognised_extension ext -> guess_is_path template = false).
Proof.
  assert (Hext : forall ext, text_after_last_dot template ext ->
             List.last (rsplit template ".") EmptyString = ext).
  { intros ext [pre [-> Hno]]. apply rsplit_last, Hno. }
  assert (Hiff : guess_is_path template = true <->
     ~ contains newline template /\ contains "." template /\
     exists ext, text_after_last_dot template ext /\ recognised_extension ext).
  { unfold guess_is_path. split.
    - destruct (str_in newline template) eqn:En; [discriminate|].
      destruct (str_in "." template) eqn:Ed; [|discriminate].
      cbn [negb andb].
      destruct (existsb _ _) eqn:Ex; [intros _|discriminate].
      apply str_in_false in En. apply str_in_spec in Ed.
      split; [exact En|]. split; [exact Ed|].
      destruct (last_sep_decompose _ _ Ed) as [pre [ext [Hs Hno]]].
      assert (Ht : text_after_last_dot template ext) by (now exists pre).
      exists ext. split; [exact Ht|].
      apply recognised_extension_spec. now rewrite <- (Hext ext Ht).
    - intros [Hn [Hd [ext [Ht Hr]]]].
      apply str_in_false in Hn. apply str_in_spec in Hd.
      rewrite Hn, Hd. cbn [negb andb].
      rewrite (Hext ext Ht).
      apply recognised_extension_spec in Hr. now rewrite Hr. }
  split; [exact Hiff|]. split.
  - intros Hnl. destruct (guess_is_path template); [|reflexivity].
    destruct (proj1 Hiff eq_refl) as [Hn _]. contradiction.
  - intros ext Ht Hnr. destruct (guess_is_path template); [|reflexivity].
    destruct (proj1 Hiff eq_refl) as [_ [_ [ext' [Ht' Hr]]]].
    rewrite <- (Hext ext Ht) in Hnr. rewrite <- (Hext ext' Ht') in Hr.
    contradiction.
Qed.

Lemma guess_is_path_iff_witness :
  guess_is_path "templates/pages/index.html" = true /\
  guess_is_path ("<p>" ++ newline ++ "index.html")%string = false /\
  guess_is_path "archive.tar.gz" = false.
Proof.
  split; [|split].
  - apply (proj1 (guess_is_path_iff "templates/pages/index.html")).
    split; [apply str_in_false; reflexivity|].
    split; [apply str_in_spec; reflexivity|].
    exists "html". split.
    + exists "templates/pages/index". split; [reflexivity|].
      apply str_in_false. reflexivity.
    + left. reflexivity.
  - apply (proj1 (proj2 (guess_is_path_iff _))).
    apply str_in_spec. reflexivity.
  - apply (proj2 (proj2 (guess_is_path_iff "archive.tar.gz")) "gz").
    + exists "archive.tar". split; [reflexivity|].
      apply str_in_false. reflexivity.
    + intros [H|[H|[H|H]]]; discriminate H.
Defined.

(** ** render_template *)

(** C10: with a template that is [None] or the empty string the call
    returns the empty string, whatever the context, [is_path] and
    [safe_render]; it makes no call to the template environment and
    raises nothing. *)
Theorem render_template_falsy (fw : Framework) (template : option string)
    (context : dict) (is_path : option bool) (safe_render : bool) :
  not_template template = true ->
  render_template fw template context is_path safe_render
  = ([], Ok EmptyString).
Proof.
  unfold not_template, render_template.
  destruct template as [s|]; [|reflexivity].
  intros ->. reflexivity.
Qed.

Lemma render_template_falsy_witness :
  not_template (Some EmptyString) = true /\
  render_template Examples.site (Some EmptyString)
                  [("doc", PyStr "ToDo")] (Some true) true
  = ([], Ok EmptyString).
Proof.
  split; [reflexivity|].
  apply render_template_falsy. reflexivity.
Defined.

(** C2, as the specification words it, does not hold: a one-line
    template that ends in [.html] is taken for a path, so the check for
    [.__] is not reached and the call ends as the loader does. *)
Lemma render_template_dunder_in_path :
  ~ (forall (fw : Framework) (template : string) (context : dict)
            (is_path : option bool),
        contains ".__" template ->
        let run := render_template fw (Some template) context is_path true in
        outcome run = Raise (ValidationError None "Illegal template") /\
        forall ev, In ev (trace run) ->
                   ev <> EvFromString template /\ ev <> EvGetTemplate template).
Proof.
  intros H.
  destruct (H Examples.site "{{ doc.__class__ }} index.html" [] None)
    as [Hout _].
  - apply str_in_spec. reflexivity.
  - vm_compute in Hout. discriminate Hout.
Qed.

(** C2, amended: when [is_path] is not set and [guess_is_path] does not
    take the template for a path, a call with [safe_render] and a
    template that contains [.__] raises the illegal-template failure,
    for every context, and has called nothing of the template
    environment by then. *)
Theorem render_template_rejects_dunder (fw : Framework) (template : string)
    (context : dict) (is_path : option bool) :
  is_path_truthy is_path = false ->
  guess_is_path template = false ->
  contains ".__" template ->
  render_template fw (Some template) context is_path true
  = ([], Raise (ValidationError None "Illegal template")).
Proof.
  intros Hp Hg Hc. unfold render_template.
  destruct (String.eqb template EmptyString) eqn:E.
  - apply String.eqb_eq in E. subst template.
    apply str_in_spec in Hc. discriminate Hc.
  - rewrite Hp, Hg. cbn [orb].
    apply str_in_spec in Hc. rewrite Hc. reflexivity.
Qed.

Lemma render_template_rejects_dunder_witness :
  is_path_truthy None = false /\
  guess_is_path "{{ doc.__class__ }}" = false /\
  contains ".__" "{{ doc.__class__ }}" /\
  render_template Examples.site (Some "{{ doc.__class__ }}")
                  [("doc", PyStr "ToDo")] None true
  = ([], Raise (ValidationError None "Illegal template")).
Proof.
  assert (Hc : contains ".__" "{{ doc.__class__ }}")
    by (apply str_in_spec; reflexivity).
  split; [reflexivity|]. split; [reflexivity|]. split; [exact Hc|].
  apply render_template_rejects_dunder; [reflexivity | reflexivity | exact Hc].
Defined.

(** ** component: the template is missing *)

Local Ltac run_monad :=
  cbn -[String.append dict_update dict_set dict_get str_in
        Jinja.resolve_class startswith].

(** C7: when the loader does not find the template of a component,
    [component] raises nothing and returns the fragment
    [<pre>Component "name" not found</pre>]. *)
Theorem component_not_found (fw : Framework) (name : string) (kwargs : dict)
    (missing : string) :
  loader_get_source (local_jenv fw) (component_path name)
    = Raise (TemplateNotFound missing) ->
  component fw name kwargs
    = ([EvGetJenv; EvGetSource (component_path name)],
       Ok ("<pre>Component " ++ dquote ++ name ++ dquote
           ++ " not found</pre>")%string)
  /\ contains ("Component " ++ dquote ++ name ++ dquote ++ " not found")
              ("<pre>Component " ++ dquote ++ name ++ dquote
               ++ " not found</pre>").
Proof.
  intros Hmiss. split.
  - unfold component, component_path in *. run_monad.
    rewrite Hmiss. reflexivity.
  - exists "<pre>", "</pre>". rewrite !append_assoc. reflexivity.
Qed.

Lemma component_not_found_witness :
  loader_get_source (local_jenv Examples.site) (component_path "missing")
    = Raise (TemplateNotFound "templates/components/missing.html") /\
  component Examples.site "missing" [("label", PyStr "New")]
    = ([EvGetJenv; EvGetSource "templates/components/missing.html"],
       Ok ("<pre>Component " ++ dquote ++ "missing" ++ dquote
           ++ " not found</pre>")%string).
Proof.
  split; [reflexivity|].
  apply (component_not_found Examples.site "missing" [("label", PyStr "New")]
           "templates/components/missing.html").
  reflexivity.
Defined.

(** ** parse_front_matter_attrs_and_html *)

(** C3 does not hold of the code: when [Frontmatter.read] raises, the
    handler adds the exception to a string, which raises [TypeError];
    the call ends with that exception and has printed nothing. *)
Theorem parse_front_matter_handler_raises (fw : Framework) (source : string)
    (e : exn) :
  startswith source "---" = true ->
  Frontmatter_read fw source = Raise e ->
  parse_front_matter_attrs_and_html fw source
  = ([EvFrontmatterRead source],
     Raise (TypeError "can only concatenate str to str")).
Proof.
  intros Hs He. unfold parse_front_matter_attrs_and_html.
  rewrite Hs. run_monad. rewrite He. reflexivity.
Qed.

Lemma parse_front_matter_handler_raises_witness :
  startswith Examples.broken_source "---" = true /\
  Frontmatter_read Examples.site Examples.broken_source
    = Raise (OtherException "yaml.parser.ParserError") /\
  parse_front_matter_attrs_and_html Examples.site Examples.broken_source
  = ([EvFrontmatterRead Examples.broken_source],
     Raise (TypeError "can only concatenate str to str")).
Proof.
  split; [reflexivity|]. split; [reflexivity|].
  apply (parse_front_matter_handler_raises Examples.site Examples.broken_source
           (OtherException "yaml.parser.ParserError")); reflexivity.
Defined.

(** ** resolve_class *)

Lemma resolve_class_list (cs : list pyvalue) :
  resolve_class (PyList cs)
  = rbind (resolve_each cs) (fun rs =>
    rbind (str_join " " rs) (fun s => Ok (PyStr (strip s)))).
Proof. reflexivity. Qed.

Lemma resolve_class_tuple (cs : list pyvalue) :
  resolve_class (PyTuple cs)
  = rbind (resolve_each cs) (fun rs =>
    rbind (str_join " " rs) (fun s => Ok (PyStr (strip s)))).
Proof. reflexivity. Qed.

Lemma resolve_each_strings (cs : list pyvalue) (strs : list string) :
  resolve_to cs strs -> resolve_each cs = Ok (map PyStr strs).
Proof.
  induction 1 as [|c s cs strs Hc _ IH]; [reflexivity|].
  cbn [resolve_each map]. rewrite Hc, IH. reflexivity.
Qed.

Lemma as_strs_strings (strs : list string) :
  as_strs (map PyStr strs) = Ok strs.
Proof.
  induction strs as [|s strs IH]; [reflexivity|].
  cbn [map as_strs]. rewrite IH. reflexivity.
Qed.

Lemma str_join_strings (sep : string) (strs : list string) :
  str_join sep (map PyStr strs) = Ok (String.concat sep strs).
Proof. unfold str_join. now rewrite as_strs_strings. Qed.

Lemma dict_get_none (k : string) (d : dict) :
  ~ In k (map fst d) -> dict_get k d = None.
Proof.
  induction d as [|[k' v'] d IH]; intros Hk; [reflexivity|].
  cbn [dict_get]. destruct (String.eqb k k') eqn:E.
  - apply String.eqb_eq in E. subst. exfalso. apply Hk. now left.
  - apply IH. intros H. apply Hk. now right.
Qed.

Lemma dict_get_in (d : dict) (k : string) (v : pyvalue) :
  dict_wf d -> In (k, v) d -> dict_get k d = Some v.
Proof.
  unfold dict_wf. induction d as [|[k' v'] d IH]; intros Hwf Hin; [destruct Hin|].
  cbn [map fst] in Hwf. inversion Hwf as [|? ? Hnotin Hwf']; subst.
  cbn [dict_get]. destruct Hin as [Heq|Hin].
  - injection Heq as -> ->. now rewrite String.eqb_refl.
  - destruct (String.eqb k k') eqn:E; [|now apply IH].
    apply String.eqb_eq in E. subst. exfalso. apply Hnotin.
    change k' with (fst (k', v)). now apply in_map.
Qed.

Lemma filter_map_fst {A B : Type} (f : A -> bool) (l : list (A * B)) :
  filter f (map fst l) = map fst (filter (fun kv => f (fst kv)) l).
Proof.
  induction l as [|[a b] l IH]; [reflexivity|].
  cbn [map filter fst]. destruct (f a); cbn [map fst]; now rewrite IH.
Qed.

Lemma truthy_keys_spec (items : dict) :
  dict_wf items ->
  filter (fun classname =>
            match dict_get classname items with
            | Some v => truthy v
            | None => false
            end) (map fst items)
  = truthy_keys items.
Proof.
  intros Hwf. unfold truthy_keys. rewrite filter_map_fst. f_equal.
  apply filter_ext_in. intros [k v] Hin. cbn [fst snd].
  now rewrite (dict_get_in items k v Hwf Hin).
Qed.

(** C8, as the specification words it, does not hold: the join of a
    list is stripped, so an empty class name at an end of the list
    leaves no space behind. *)
Lemma resolve_class_is_not_plain_join :
  ~ (forall (cs : list pyvalue) (strs : list string),
        resolve_to cs strs ->
        resolve_class (PyList cs) = Ok (PyStr (plain_join strs))).
Proof.
  intros H.
  specialize (H [PyStr "btn"; PyStr EmptyString] ["btn"; EmptyString]).
  assert (Hr : resolve_to [PyStr "btn"; PyStr EmptyString] ["btn"; EmptyString])
    by (repeat constructor).
  specialize (H Hr). vm_compute in H. discriminate H.
Qed.

(** C8, amended: [resolve_class] maps [None] to the empty string and a
    string to itself; a list or tuple whose elements resolve to strings
    to the join of those strings with single spaces, stripped of
    leading and trailing whitespace; a mapping to the join, stripped
    likewise, of the keys whose values are truthy; any other value to
    itself.  So [["a", "b"]] gives ["a b"] and
    [{"a": True, "b": False}] gives ["a"]. *)
Theorem resolve_class_cases (s : string) (cs : list pyvalue)
    (strs : list string) (items : dict) (b : bool) (z : Z) :
  resolve_to cs strs ->
  dict_wf items ->
  resolve_class PyNone = Ok (PyStr EmptyString) /\
  resolve_class (PyStr s) = Ok (PyStr s) /\
  resolve_class (PyList cs) = Ok (PyStr (strip (plain_join strs))) /\
  resolve_class (PyTuple cs) = Ok (PyStr (strip (plain_join strs))) /\
  resolve_class (PyDict items)
    = Ok (PyStr (strip (plain_join (truthy_keys items)))) /\
  resolve_class (PyBool b) = Ok (PyBool b) /\
  resolve_class (PyInt z) = Ok (PyInt z) /\
  resolve_class (PyList [PyStr "a"; PyStr "b"]) = Ok (PyStr "a b") /\
  resolve_class (PyDict [("a", PyBool true); ("b", PyBool false)])
    = Ok (PyStr "a").
Proof.
  intros Hcs Hwf.
  assert (Hseq : rbind (resolve_each cs) (fun rs =>
                 rbind (str_join " " rs) (fun s => Ok (PyStr (strip s))))
                 = Ok (PyStr (strip (plain_join strs)))).
  { rewrite (resolve_each_strings cs strs Hcs). cbn [rbind].
    rewrite str_join_strings. reflexivity. }
  repeat split; try reflexivity.
  - rewrite resolve_class_list. exact Hseq.
  - rewrite resolve_class_tuple. exact Hseq.
  - cbn [resolve_class]. rewrite (truthy_keys_spec items Hwf).
    rewrite str_join_strings. reflexivity.
Qed.

Lemma resolve_class_cases_witness :
  resolve_class (PyList [PyStr "btn"; PyNone; PyTuple [PyStr "btn-primary"]])
    = Ok (PyStr "btn  btn-primary") /\
  resolve_class (PyDict [("active", PyInt 1); ("hidden", PyStr EmptyString); (EmptyString, PyBool true)])
    = Ok (PyStr "active").
Proof.
  pose proof (resolve_class_cases "btn"
                [PyStr "btn"; PyNone; PyTuple [PyStr "btn-primary"]]
                ["btn"; EmptyString; "btn-primary"]
                [("active", PyInt 1); ("hidden", PyStr EmptyString); (EmptyString, PyBool true)]
                true 0) as H.
  assert (Hcs : resolve_to [PyStr "btn"; PyNone; PyTuple [PyStr "btn-primary"]]
                           ["btn"; EmptyString; "btn-primary"])
    by (repeat constructor).
  assert (Hwf : dict_wf [("active", PyInt 1); ("hidden", PyStr EmptyString); (EmptyString, PyBool true)]).
  { unfold dict_wf. cbn [map fst].
    repeat constructor; cbn [In]; intros Hin;
      repeat (destruct Hin as [Hin|Hin]; [discriminate Hin|]); exact Hin. }
  destruct (H Hcs Hwf) as (_ & _ & Hl & _ & Hd & _).
  split; [exact Hl | exact Hd].
Defined.

(** ** component: the context of the rendering *)

Lemma dict_get_set (k k' : string) (v : pyvalue) (d : dict) :
  dict_get k (dict_set k' v d)
  = if String.eqb k k' then Some v else dict_get k d.
Proof.
  induction d as [|[k0 v0] d IH]; cbn [dict_set dict_get].
  - reflexivity.
  - destruct (String.eqb k' k0) eqn:E0; cbn [dict_get].
    + apply String.eqb_eq in E0. subst k0.
      destruct (String.eqb k k'); reflexivity.
    + destruct (String.eqb k k0) eqn:E1.
      * apply String.eqb_eq in E1. subst k0.
        rewrite String.eqb_sym in E0. now rewrite E0.
      * exact IH.
Qed.

Lemma dict_get_update (k : string) (other : dict) :
  dict_wf other ->
  forall d, dict_get k (dict_update d other)
            = match dict_get k other with
              | Some v => Some v
              | None => dict_get k d
              end.
Proof.
  unfold dict_wf, dict_update.
  induction other as [|[k0 v0] other IH]; intros Hwf d; [reflexivity|].
  cbn [map fst] in Hwf. inversion Hwf as [|? ? Hnotin Hwf']; subst.
  cbn [fold_left fst snd dict_get]. rewrite (IH Hwf'), dict_get_set.
  destruct (String.eqb k k0) eqn:E; [|reflexivity].
  apply String.eqb_eq in E. subst k0.
  now rewrite (dict_get_none k other Hnotin).
Qed.

Lemma merge_is_merge (attributes kwargs : dict) :
  dict_wf attributes -> dict_wf kwargs ->
  is_merge (dict_update (dict_update [] attributes) kwargs) attributes kwargs.
Proof.
  intros Ha Hk k. unfold merged.
  rewrite (dict_get_update k kwargs Hk), (dict_get_update k attributes Ha).
  destruct (dict_get k kwargs); [reflexivity|].
  destruct (dict_get k attributes); reflexivity.
Qed.

(** C6, as the specification words it, does not hold: the context of
    the rendering always has an entry [class], also when neither the
    front matter nor the keyword arguments have one. *)
Lemma component_context_is_not_the_merge :
  ~ (forall (fw : Framework) (name : string) (kwargs : dict)
            (source body fm : string) (attributes : dict),
        loader_get_source (local_jenv fw) (component_path name) = Ok source ->
        startswith source "---" = true ->
        Frontmatter_read fw source
          = Ok {| fm_attributes := Some attributes; fm_body := body;
                  fm_frontmatter := fm |} ->
        attributes <> [] -> dict_wf attributes -> dict_wf kwargs ->
        exists context,
          In (EvRender context) (trace (component fw name kwargs)) /\
          is_merge context attributes kwargs).
Proof.
  intros H.
  destruct (H Examples.site "card" [("label", PyStr "New")]
              Examples.card_source Examples.card_body
              (newline ++ "title: Card" ++ newline)%string
              [("title", PyStr "Card")])
    as [context [Hin Hm]]; try reflexivity.
  - discriminate.
  - repeat constructor; cbn [In map fst]; tauto.
  - repeat constructor; cbn [In map fst]; tauto.
  - specialize (Hm "class"). vm_compute in Hin.
    repeat (destruct Hin as [Hin|Hin]; [try discriminate Hin|]);
      [|destruct Hin].
    injection Hin as <-. vm_compute in Hm. discriminate Hm.
Qed.

(** C6, amended: for a source that begins with [---] and whose front
    matter reads as a non-empty mapping, [component] renders the body
    with the merge of the attributes and the keyword arguments, keyword
    arguments first, in which the entry [class] is replaced by its
    [resolve_class], or set to the empty string when the merge has none;
    for a source that does not begin with [---] the attributes are empty
    and the body is the whole source. *)
Theorem component_context (fw : Framework) :
  (forall (name : string) (kwargs : dict) (source body fm : string)
          (attributes : dict) (cls : pyvalue),
      loader_get_source (local_jenv fw) (component_path name) = Ok source ->
      startswith source "---" = true ->
      Frontmatter_read fw source
        = Ok {| fm_attributes := Some attributes; fm_body := body;
                fm_frontmatter := fm |} ->
      attributes <> [] -> dict_wf attributes -> dict_wf kwargs ->
      match merged attributes kwargs "class" with
      | Some c => resolve_class c
      | None => Ok (PyStr EmptyString)
      end = Ok cls ->
      exists context,
        component fw name kwargs
          = ([EvGetJenv; EvGetSource (component_path name);
              EvFrontmatterRead source] ++ trace (renders fw body context),
             outcome (renders fw body context)) /\
        dict_get "class" context = Some cls /\
        forall k, k <> "class" ->
                  dict_get k context = merged attributes kwargs k)
  /\
  (forall source : string,
      startswith source "---" = false ->
      parse_front_matter_attrs_and_html fw source = ([], Ok ([], source))).
Proof.
  split.
  - intros name kwargs source body fm attributes cls
           Hsrc Hstart Hfm Hne Hwa Hwk Hcls.
    pose proof (merge_is_merge attributes kwargs Hwa Hwk) as Hmerge.
    set (ctx0 := dict_update (dict_update [] attributes) kwargs) in *.
    exists (dict_set "class" cls ctx0).
    split; [|split].
    + unfold component, component_path in *. run_monad.
      rewrite Hsrc. run_monad.
      unfold parse_front_matter_attrs_and_html. rewrite Hstart. run_monad.
      rewrite Hfm. run_monad.
      destruct attributes as [|item items]; [contradiction|].
      run_monad. fold ctx0.
      rewrite <- (Hmerge "class") in Hcls.
      destruct (dict_get "class" ctx0) as [c|].
      * run_monad. rewrite Hcls. run_monad.
        unfold renders. run_monad.
        destruct (from_string (local_jenv fw) body) as [t|e]; run_monad;
          [destruct (render t (dict_set "class" cls ctx0))|]; reflexivity.
      * injection Hcls as <-. run_monad.
        unfold renders. run_monad.
        destruct (from_string (local_jenv fw) body) as [t|e]; run_monad;
          [destruct (render t (dict_set "class" (PyStr EmptyString) ctx0))|];
          reflexivity.
    + rewrite dict_get_set. reflexivity.
    + intros k Hk. rewrite dict_get_set.
      apply String.eqb_neq in Hk. rewrite Hk. apply Hmerge.
  - intros source Hstart. unfold parse_front_matter_attrs_and_html.
    rewrite Hstart. reflexivity.
Qed.

Lemma component_context_witness :
  (exists context,
      component Examples.site "card" [("class", PyList [PyStr "wide"; PyStr EmptyString])]
        = ([EvGetJenv; EvGetSource (component_path "card");
            EvFrontmatterRead Examples.card_source]
             ++ trace (renders Examples.site Examples.card_body context),
           outcome (renders Examples.site Examples.card_body context)) /\
      dict_get "class" context = Some (PyStr "wide") /\
      forall k, k <> "class" ->
                dict_get k context
                = merged [("title", PyStr "Card")]
                         [("class", PyList [PyStr "wide"; PyStr EmptyString])] k)
  /\
  parse_front_matter_attrs_and_html Examples.site Examples.badge_source
    = ([], Ok ([], Examples.badge_source)).
Proof.
  destruct (component_context Examples.site) as [Hfront Hplain].
  split.
  - apply (Hfront "card" [("class", PyList [PyStr "wide"; PyStr EmptyString])]
                  Examples.card_source Examples.card_body
                  (newline ++ "title: Card" ++ newline)%string
                  [("title", PyStr "Card")] (PyStr "wide"));
      try reflexivity.
    + discriminate.
    + repeat constructor; cbn [In map fst]; tauto.
    + repeat constructor; cbn [In map fst]; tauto.
  - apply Hplain. reflexivity.
Defined.

End JinjaFacts.

(* ================================================================= *)
(** * More about route_history.py                                      *)
(* ================================================================= *)

Section RetentionFacts.
Import RouteHistory.

Lemma filter_twice {A : Type} (f g : A -> bool) (l : list A) :
  filter f (filter g l) = filter (fun x => g x && f x) l.
Proof.
  induction l as [|x l IH]; [reflexivity|].
  cbn [filter]. destruct (g x); cbn [filter andb]; now rewrite IH.
Qed.

Lemma filter_all {A : Type} (f : A -> bool) (l : list A) :
  (forall x, In x l -> f x = true) -> filter f l = l.
Proof.
  induction l as [|x l IH]; intros H; [reflexivity|].
  cbn [filter]. rewrite (H x (or_introl eq_refl)). f_equal.
  apply IH. intros y Hy. apply H. now right.
Qed.

Lemma filter_agree {A : Type} (f g : A -> bool) (l : list A) :
  filter f l = filter g l -> forall x, In x l -> f x = g x.
Proof.
  intros E x Hx.
  destruct (f x) eqn:Ef, (g x) eqn:Eg; try reflexivity.
  - assert (H : In x (filter f l)) by (apply filter_In; auto).
    rewrite E in H. apply filter_In in H. destruct H; congruence.
  - assert (H : In x (filter g l)) by (apply filter_In; auto).
    rewrite <- E in H. apply filter_In in H. destruct H; congruence.
Qed.

(** The loop only ever filters the table. *)
Lemma for_users_filters (users : list string) :
  forall tbl tbl' : Table,
    for_users users tbl = Ok tbl' -> exists keep, tbl' = filter keep tbl.
Proof.
  induction users as [|u rest IH]; intros tbl tbl' Hrun.
  - injection Hrun as <-. exists (fun _ => true).
    symmetry. apply filter_all. reflexivity.
  - cbn [for_users] in Hrun. rewrite flush_user_eq in Hrun.
    destruct (nth_error (order_by_modified_desc (rows_of u tbl)) 500)
      as [r|]; [|discriminate Hrun].
    cbn [rbind] in Hrun. destruct (IH _ _ Hrun) as [keep ->].
    unfold db_delete. rewrite filter_twice. eauto.
Qed.

Lemma kept_rows_length_le (rows : list Row) :
  List.length (kept_rows 500 rows) <= 500.
Proof.
  destruct (Nat.lt_ge_cases 500 (List.length rows)) as [Hbig|Hsmall].
  - apply kept_rows_length, Hbig.
  - rewrite kept_rows_short; assumption.
Qed.

(** X1: the whole call is one pass over the table: it always succeeds
    (the index [[0]] is never out of range) and returns the table
    without the rows that are at or before the row at offset 500 of
    their own user; no row is added, changed or moved. *)
Theorem flush_is_one_filter (tbl : Table) :
  flush_old_route_records tbl = Ok (filter (survives tbl) tbl).
Proof.
  destruct (flush_spec tbl) as [tbl' [Hrun Hrows]].
  rewrite Hrun. f_equal.
  unfold flush_old_route_records in Hrun.
  destruct (for_users_filters _ _ _ Hrun) as [keep ->].
  apply filter_ext_in. intros r Hr.
  specialize (Hrows (user r)).
  unfold rows_of in Hrows. rewrite filter_twice in Hrows.
  assert (Hkept : kept_rows 500 (rows_of (user r) tbl)
                  = filter (fun x => String.eqb (user x) (user r) && survives tbl x) tbl).
  { unfold kept_rows, survives, newer_than, rows_of at 2 3.
    destruct (nth_error (order_by_modified_desc (rows_of (user r) tbl)) 500)
      as [b|] eqn:E.
    - rewrite filter_twice. apply filter_ext_in. intros x _.
      destruct (String.eqb (user x) (user r)) eqn:Ex; [|reflexivity].
      apply String.eqb_eq in Ex. rewrite Ex, E. reflexivity.
    - apply filter_ext_in. intros x _.
      destruct (String.eqb (user x) (user r)) eqn:Ex; [|reflexivity].
      apply String.eqb_eq in Ex. rewrite Ex, E. reflexivity. }
  unfold rows_of in Hkept at 1. rewrite Hkept in Hrows.
  pose proof (filter_agree _ _ _ Hrows r Hr) as Hagree.
  cbn beta in Hagree. rewrite String.eqb_refl in Hagree.
  rewrite !andb_true_r in Hagree.
  destruct (keep r); cbn [andb] in Hagree; [|exact Hagree].
  rewrite <- Hagree. reflexivity.
Qed.

(** X2: a second run changes nothing: on the table a run returns, the
    call returns that table again. *)
Theorem flush_twice (tbl : Table) :
  exists tbl', flush_old_route_records tbl = Ok tbl' /\
               flush_old_route_records tbl' = Ok tbl'.
Proof.
  destruct (flush_spec tbl) as [tbl' [Hrun Hrows]].
  exists tbl'. split; [exact Hrun|].
  unfold flush_old_route_records, records_to_keep_limit.
  assert (Hnone : sql_users_over 500 tbl' = []).
  { unfold sql_users_over. apply filter_none. intros u _.
    apply Nat.ltb_ge. rewrite Hrows. apply kept_rows_length_le. }
  rewrite Hnone. reflexivity.
Qed.

Lemma newer_than_offset_distinct (l : list Row) (k : nat) (r : Row) :
  descending l -> NoDup (map modified l) -> nth_error l k = Some r ->
  List.length (newer_than (modified r) l) = k.
Proof.
  unfold descending, newer_than. revert k.
  induction l as [|x l IH]; intros k S ND Hk.
  - destruct k; discriminate.
  - inversion S as [|? ? S' Hx]; subst.
    cbn [map] in ND. inversion ND as [|? ? Hfresh ND']; subst.
    rewrite Forall_forall in Hx.
    destruct k as [|k]; cbn [nth_error] in Hk.
    + injection Hk as ->. cbn [filter].
      rewrite Z.leb_refl. cbn [negb].
      rewrite filter_none; [reflexivity|].
      intros y Hy. apply negb_false_iff, Z.leb_le, Hx, Hy.
    + assert (Hr : In r l) by (eapply nth_error_In; exact Hk).
      assert (Hlt : (modified r < modified x)%Z).
      { specialize (Hx r Hr).
        assert (modified x <> modified r)
          by (intros E; apply Hfresh; rewrite E; now apply in_map).
        lia. }
      cbn [filter]. apply Z.leb_gt in Hlt. rewrite Hlt. cbn [negb List.length].
      f_equal. apply IH; assumption.
Qed.

(** X3: when the rows of a user with more than 500 rows all have
    different modification times, the call leaves that user exactly
    500 rows. *)
Theorem flush_keeps_500_when_distinct (tbl : Table) (u : string) :
  500 < List.length (rows_of u tbl) ->
  NoDup (map modified (rows_of u tbl)) ->
  exists tbl', flush_old_route_records tbl = Ok tbl' /\
               List.length (rows_of u tbl') = 500.
Proof.
  intros Hbig ND.
  destruct (flush_spec tbl) as [tbl' [Hrun Hrows]].
  exists tbl'. split; [exact Hrun|].
  rewrite Hrows. unfold kept_rows.
  destruct (nth_error (order_by_modified_desc (rows_of u tbl)) 500)
    as [r|] eqn:E.
  - unfold newer_than.
    rewrite (filter_length_perm _ _ _ (Permutation_sym (order_by_perm (rows_of u tbl)))).
    apply newer_than_offset_distinct;
      [apply order_by_descending | | exact E].
    eapply Permutation_NoDup; [|exact ND].
    apply Permutation_map, Permutation_sym, order_by_perm.
  - apply nth_error_None in E. rewrite order_by_length in E. lia.
Qed.

Lemma flush_keeps_500_when_distinct_witness :
  500 < List.length (rows_of "alice" Examples.two_users) /\
  NoDup (map modified (rows_of "alice" Examples.two_users)) /\
  exists tbl', flush_old_route_records Examples.two_users = Ok tbl' /\
               List.length (rows_of "alice" tbl') = 500.
Proof.
  assert (Hbig : 500 < List.length (rows_of "alice" Examples.two_users))
    by (apply Nat.ltb_lt; vm_compute; reflexivity).
  assert (ND : NoDup (map modified (rows_of "alice" Examples.two_users))).
  { assert (E : nodup Z.eq_dec (map modified (rows_of "alice" Examples.two_users))
                = map modified (rows_of "alice" Examples.two_users))
      by (vm_compute; reflexivity).
    rewrite <- E. apply NoDup_nodup. }
  split; [exact Hbig|]. split; [exact ND|].
  exact (flush_keeps_500_when_distinct Examples.two_users "alice" Hbig ND).
Defined.

(** X4: when the rows of a user with more than 500 rows all carry one
    modification time, the call deletes every row of that user. *)
Theorem flush_deletes_a_whole_batch (tbl : Table) (u : string) (m : Z) :
  500 < List.length (rows_of u tbl) ->
  (forall r, In r (rows_of u tbl) -> modified r = m) ->
  exists tbl', flush_old_route_records tbl = Ok tbl' /\ rows_of u tbl' = [].
Proof.
  intros Hbig Hsame.
  destruct (flush_spec tbl) as [tbl' [Hrun Hrows]].
  exists tbl'. split; [exact Hrun|].
  rewrite Hrows. unfold kept_rows.
  destruct (nth_error (order_by_modified_desc (rows_of u tbl)) 500)
    as [r|] eqn:E.
  - assert (Hr : In r (rows_of u tbl)).
    { eapply Permutation_in; [apply order_by_perm|].
      eapply nth_error_In; exact E. }
    unfold newer_than. apply filter_none. intros x Hx.
    rewrite (Hsame x Hx), (Hsame r Hr), Z.leb_refl. reflexivity.
  - apply nth_error_None in E. rewrite order_by_length in E. lia.
Qed.

Lemma flush_deletes_a_whole_batch_witness :
  500 < List.length (rows_of "carol" MoreExamples.after_import) /\
  (forall r, In r (rows_of "carol" MoreExamples.after_import) ->
             modified r = 1700000000%Z) /\
  exists tbl', flush_old_route_records MoreExamples.after_import = Ok tbl' /\
               rows_of "carol" tbl' = [].
Proof.
  assert (Hbig : 500 < List.length (rows_of "carol" MoreExamples.after_import))
    by (apply Nat.ltb_lt; vm_compute; reflexivity).
  assert (Hsame : forall r, In r (rows_of "carol" MoreExamples.after_import) ->
                            modified r = 1700000000%Z).
  { assert (E : forallb (fun r => (modified r =? 1700000000)%Z)
                        (rows_of "carol" MoreExamples.after_import) = true)
      by (vm_compute; reflexivity).
    intros r Hr. apply Z.eqb_eq.
    exact (proj1 (forallb_forall _ _) E r Hr). }
  split; [exact Hbig|]. split; [exact Hsame|].
  exact (flush_deletes_a_whole_batch MoreExamples.after_import "carol"
           1700000000%Z Hbig Hsame).
Defined.

End RetentionFacts.

(* ================================================================= *)
(** * More about jinja.py                                              *)
(* ================================================================= *)

Section RenderingFacts.
Import Jinja.

Local Ltac run_monad :=
  cbn -[String.append dict_update dict_set dict_get str_in
        Jinja.resolve_class startswith].

(** ** render_template on inline source *)

(** X5: on inline source ([is_path] not set, the template not taken
    for a path) no [TemplateError] of jinja2 leaves [render_template]:
    whatever it raises is of another class. *)
Theorem render_template_inline_raises_no_TemplateError (fw : Framework)
    (template : string) (context : dict) (is_path : option bool)
    (safe_render : bool) (e : exn) :
  is_path_truthy is_path = false ->
  guess_is_path template = false ->
  outcome (render_template fw (Some template) context is_path safe_render)
    = Raise e ->
  is_TemplateError e = false.
Proof.
  intros Hp Hg. unfold render_template.
  destruct (String.eqb template EmptyString); [discriminate|].
  rewrite Hp, Hg. cbn [orb].
  destruct (safe_render && str_in ".__" template).
  - run_monad. intros H. injection H as <-. reflexivity.
  - run_monad.
    destruct (from_string (local_jenv fw) template) as [t|e1]; run_monad.
    + destruct (render t context) as [out|e2]; run_monad; [discriminate|].
      destruct (is_TemplateError e2) eqn:E2; run_monad.
      * intros H. injection H as <-. reflexivity.
      * intros H. injection H as <-. exact E2.
    + destruct (is_TemplateError e1) eqn:E1; run_monad.
      * intros H. injection H as <-. reflexivity.
      * intros H. injection H as <-. exact E1.
Qed.

Lemma render_template_inline_raises_no_TemplateError_witness :
  is_path_truthy None = false /\
  guess_is_path "<h1>{{ title</h1>" = false /\
  outcome (render_template MoreExamples.checking_site (Some "<h1>{{ title</h1>")
             [("title", PyStr "Home")] None true)
    = Raise (ValidationError (Some "Jinja Template Error")
               "<pre><h1>{{ title</h1></pre><pre>Traceback (most recent call last)</pre>") /\
  is_TemplateError
    (ValidationError (Some "Jinja Template Error")
       "<pre><h1>{{ title</h1></pre><pre>Traceback (most recent call last)</pre>")
    = false.
Proof.
  split; [reflexivity|]. split; [reflexivity|]. split; [reflexivity|].
  apply (render_template_inline_raises_no_TemplateError
           MoreExamples.checking_site "<h1>{{ title</h1>"
           [("title", PyStr "Home")] None true); reflexivity.
Defined.

(** X6: when compiling or rendering inline source that passed the
    checks raises a [TemplateError], [render_template] raises a
    [ValidationError] titled [Jinja Template Error] whose message holds
    the source of the template and the traceback. *)
Theorem render_template_reports_the_source (fw : Framework)
    (template : string) (context : dict) (is_path : option bool)
    (safe_render : bool) (e : exn) :
  is_path_truthy is_path = false ->
  guess_is_path template = false ->
  safe_render && str_in ".__" template = false ->
  template <> EmptyString ->
  rbind (from_string (local_jenv fw) template) (fun t => render t context)
    = Raise e ->
  is_TemplateError e = true ->
  exists msg,
    outcome (render_template fw (Some template) context is_path safe_render)
      = Raise (ValidationError (Some "Jinja Template Error") msg) /\
    contains template msg /\ contains (get_traceback fw e) msg.
Proof.
  intros Hp Hg Hs Hne Hr He.
  exists ("<pre>" ++ template ++ "</pre><pre>" ++ get_traceback fw e ++ "</pre>")%string.
  split; [|split].
  - unfold render_template.
    apply String.eqb_neq in Hne. rewrite Hne, Hp, Hg, Hs. run_monad.
    destruct (from_string (local_jenv fw) template) as [t|e1];
      cbn [rbind] in Hr; run_monad.
    + rewrite Hr. run_monad. rewrite He. reflexivity.
    + injection Hr as ->. rewrite He. reflexivity.
  - exists "<pre>", ("</pre><pre>" ++ get_traceback fw e ++ "</pre>")%string.
    reflexivity.
  - exists ("<pre>" ++ template ++ "</pre><pre>")%string, "</pre>".
    rewrite !append_assoc. reflexivity.
Qed.

Lemma render_template_reports_the_source_witness :
  exists msg,
    outcome (render_template MoreExamples.checking_site (Some "<h1>{{ title</h1>")
               [("title", PyStr "Home")] None true)
      = Raise (ValidationError (Some "Jinja Template Error") msg) /\
    contains "<h1>{{ title</h1>" msg /\
    contains "Traceback (most recent call last)" msg.
Proof.
  apply (render_template_reports_the_source MoreExamples.checking_site
           "<h1>{{ title</h1>" [("title", PyStr "Home")] None true
           (TemplateSyntaxError "unexpected end of template"));
    try reflexivity.
  discriminate.
Defined.

(** ** resolve_class *)

Lemma pyvalue_induction (P : pyvalue -> Prop) :
  P PyNone ->
  (forall b, P (PyBool b)) ->
  (forall z, P (PyInt z)) ->
  (forall s, P (PyStr s)) ->
  (forall xs, Forall P xs -> P (PyList xs)) ->
  (forall xs, Forall P xs -> P (PyTuple xs)) ->
  (forall items, Forall (fun kv => P (snd kv)) items -> P (PyDict items)) ->
  forall v, P v.
Proof.
  intros HN HB HI HS HL HT HD.
  fix IH 1. intros [| b | z | s | xs | xs | items].
  - exact HN.
  - apply HB.
  - apply HI.
  - apply HS.
  - apply HL. induction xs as [|x xs IHxs]; constructor; [apply IH | exact IHxs].
  - apply HT. induction xs as [|x xs IHxs]; constructor; [apply IH | exact IHxs].
  - apply HD. induction items as [|[k x] items IHitems]; constructor;
      [apply IH | exact IHitems].
Qed.

Lemma as_strs_raises (items : list pyvalue) (e : exn) :
  as_strs items = Raise e -> exists msg, e = TypeError msg.
Proof.
  induction items as [|x items IH]; [discriminate|].
  destruct x; cbn [as_strs]; try (intros H; injection H as <-; eauto).
  destruct (as_strs items) as [ss|e']; cbn [rbind]; [discriminate|].
  intros H. injection H as <-. now apply IH.
Qed.

Lemma resolve_class_sequence (cs : list pyvalue) (w : pyvalue) :
  rbind (resolve_each cs) (fun rs =>
    rbind (str_join " " rs) (fun s => Ok (PyStr (strip s)))) = Ok w ->
  exists s, w = PyStr (strip s).
Proof.
  destruct (resolve_each cs) as [rs|e]; cbn [rbind]; [|discriminate].
  destruct (str_join " " rs) as [s|e]; cbn [rbind]; [|discriminate].
  intros H. injection H as <-. eauto.
Qed.

Lemma resolve_class_mapping (items : dict) (w : pyvalue) :
  resolve_class (PyDict items) = Ok w -> exists s, w = PyStr (strip s).
Proof.
  cbn [resolve_class]. rewrite str_join_strings. cbn [rbind].
  intros H. injection H as <-. eauto.
Qed.

Lemma resolve_class_container (v w : pyvalue) :
  is_container v -> resolve_class v = Ok w -> exists s, w = PyStr (strip s).
Proof.
  destruct v; cbn [is_container]; try contradiction; intros _.
  - rewrite resolve_class_list. apply resolve_class_sequence.
  - rewrite resolve_class_tuple. apply resolve_class_sequence.
  - apply resolve_class_mapping.
Qed.

(** X7: resolving twice is resolving once: what [resolve_class]
    returns, it returns unchanged when called on it. *)
Theorem resolve_class_idempotent (v w : pyvalue) :
  resolve_class v = Ok w -> resolve_class w = Ok w.
Proof.
  destruct v as [| b | z | s | xs | xs | items].
  - intros H. injection H as <-. reflexivity.
  - intros H. injection H as <-. reflexivity.
  - intros H. injection H as <-. reflexivity.
  - intros H. injection H as <-. reflexivity.
  - intros H. destruct (resolve_class_container (PyList xs) w I H) as [s ->].
    reflexivity.
  - intros H. destruct (resolve_class_container (PyTuple xs) w I H) as [s ->].
    reflexivity.
  - intros H. destruct (resolve_class_container (PyDict items) w I H) as [s ->].
    reflexivity.
Qed.

Lemma resolve_class_idempotent_witness :
  resolve_class (PyList [PyStr " card "; PyDict [("wide", PyInt 1)]])
    = Ok (PyStr "card  wide") /\
  resolve_class (PyStr "card  wide") = Ok (PyStr "card  wide").
Proof.
  assert (H : resolve_class (PyList [PyStr " card "; PyDict [("wide", PyInt 1)]])
              = Ok (PyStr "card  wide")) by reflexivity.
  split; [exact H|].
  exact (resolve_class_idempotent _ _ H).
Defined.

Lemma lstrip_first (s : string) (c : ascii) :
  first_char (lstrip s) = Some c -> isspace c = false.
Proof.
  induction s as [|a s IH]; cbn [lstrip]; [discriminate|].
  destruct (isspace a) eqn:E; [exact IH|].
  cbn [first_char]. intros H. injection H as <-. exact E.
Qed.

Lemma rstrip_first (s : string) (c : ascii) :
  first_char (rstrip s) = Some c -> first_char s = Some c.
Proof.
  destruct s as [|a s]; cbn [rstrip]; [discriminate|].
  destruct (rstrip s); [destruct (isspace a); [discriminate|]|]; intros H; exact H.
Qed.

Lemma rstrip_last (s : string) (c : ascii) :
  last_char (rstrip s) = Some c -> isspace c = false.
Proof.
  induction s as [|a s IH]; cbn [rstrip]; [discriminate|].
  destruct (rstrip s) as [|b r].
  - destruct (isspace a) eqn:E; [discriminate|].
    cbn [last_char]. intros H. injection H as <-. exact E.
  - cbn [last_char]. exact IH.
Qed.

Lemma strip_trimmed (s : string) : trimmed (strip s).
Proof.
  unfold trimmed, strip. split; intros c Hc.
  - apply (lstrip_first s), rstrip_first, Hc.
  - apply (rstrip_last (lstrip s)), Hc.
Qed.

(** X8: the class string that [resolve_class] makes of a list, a tuple
    or a mapping neither begins nor ends with whitespace. *)
Theorem resolve_class_is_trimmed (v w : pyvalue) :
  is_container v -> resolve_class v = Ok w ->
  exists s, w = PyStr s /\ trimmed s.
Proof.
  intros Hc Hr.
  destruct (resolve_class_container v w Hc Hr) as [s ->].
  exists (strip s). split; [reflexivity | apply strip_trimmed].
Qed.

Lemma resolve_class_is_trimmed_witness :
  is_container (PyTuple [PyNone; PyStr " btn"; PyStr EmptyString]) /\
  resolve_class (PyTuple [PyNone; PyStr " btn"; PyStr EmptyString])
    = Ok (PyStr "btn") /\
  exists s, PyStr "btn" = PyStr s /\ trimmed s.
Proof.
  assert (H : resolve_class (PyTuple [PyNone; PyStr " btn"; PyStr EmptyString])
              = Ok (PyStr "btn")) by reflexivity.
  split; [exact I|]. split; [exact H|].
  exact (resolve_class_is_trimmed
           (PyTuple [PyNone; PyStr " btn"; PyStr EmptyString]) (PyStr "btn") I H).
Defined.

Lemma resolve_class_raises (v : pyvalue) :
  forall e, resolve_class v = Raise e -> exists msg, e = TypeError msg.
Proof.
  assert (Hseq : forall xs,
             Forall (fun x => forall e, resolve_class x = Raise e ->
                                        exists msg, e = TypeError msg) xs ->
             forall e,
               rbind (resolve_each xs) (fun rs =>
                 rbind (str_join " " rs) (fun s => Ok (PyStr (strip s))))
               = Raise e ->
               exists msg, e = TypeError msg).
  { intros xs Hxs e.
    assert (Heach : forall e', resolve_each xs = Raise e' ->
                               exists msg, e' = TypeError msg).
    { induction Hxs as [|x xs Hx _ IH]; intros e'; [discriminate|].
      cbn [resolve_each].
      destruct (resolve_class x) as [r|e1] eqn:E1; cbn [rbind].
      - destruct (resolve_each xs) as [rs|e2]; cbn [rbind]; [discriminate|].
        intros H. injection H as <-. now apply IH.
      - intros H. injection H as <-. now apply Hx. }
    destruct (resolve_each xs) as [rs|e1]; cbn [rbind].
    - unfold str_join.
      destruct (as_strs rs) as [ss|e2] eqn:E2; cbn [rbind]; [discriminate|].
      intros H. injection H as <-. exact (as_strs_raises rs e2 E2).
    - intros H. injection H as <-. now apply Heach. }
  induction v using pyvalue_induction; intros e; try discriminate.
  - rewrite resolve_class_list. now apply Hseq.
  - rewrite resolve_class_tuple. now apply Hseq.
  - cbn [resolve_class]. rewrite str_join_strings. discriminate.
Qed.

Lemma resolve_each_keeps_scalars (cs rs : list pyvalue) :
  resolve_each cs = Ok rs -> Exists is_scalar cs -> Exists is_scalar rs.
Proof.
  revert rs. induction cs as [|c cs IH]; intros rs Hr Hex.
  - inversion Hex.
  - cbn [resolve_each] in Hr.
    destruct (resolve_class c) as [r|e] eqn:Ec; cbn [rbind] in Hr;
      [|discriminate].
    destruct (resolve_each cs) as [rs'|e]; cbn [rbind] in Hr; [|discriminate].
    injection Hr as <-.
    inversion Hex as [? ? Hc | ? ? Hcs]; subst.
    + left. destruct c; cbn [is_scalar] in Hc; try contradiction;
        injection Ec as <-; exact I.
    + right. now apply IH.
Qed.

Lemma as_strs_rejects_scalars (rs : list pyvalue) :
  Exists is_scalar rs -> exists msg, as_strs rs = Raise (TypeError msg).
Proof.
  induction 1 as [r rs Hr | r rs _ IH].
  - destruct r; cbn [is_scalar] in Hr; try contradiction;
      cbn [as_strs]; eauto.
  - destruct IH as [msg IH].
    destruct r; cbn [as_strs]; eauto.
    rewrite IH. cbn [rbind]. eauto.
Qed.

(** X9: a number or a boolean is returned as it is when it is the
    argument, but a list or tuple that holds one makes [resolve_class]
    raise [TypeError]. *)
Theorem resolve_class_rejects_scalars_in_sequences (cs : list pyvalue) :
  Exists is_scalar cs ->
  (exists msg, resolve_class (PyList cs) = Raise (TypeError msg)) /\
  (exists msg, resolve_class (PyTuple cs) = Raise (TypeError msg)).
Proof.
  intros Hex.
  assert (H : exists msg,
             rbind (resolve_each cs) (fun rs =>
               rbind (str_join " " rs) (fun s => Ok (PyStr (strip s))))
             = Raise (TypeError msg)).
  { destruct (resolve_each cs) as [rs|e] eqn:E; cbn [rbind].
    - destruct (as_strs_rejects_scalars rs
                  (resolve_each_keeps_scalars cs rs E Hex)) as [msg Hm].
      exists msg. unfold str_join. rewrite Hm. reflexivity.
    - assert (Hcls : resolve_class (PyList cs) = Raise e)
        by (rewrite resolve_class_list, E; reflexivity).
      destruct (resolve_class_raises _ _ Hcls) as [msg ->]. eauto. }
  split.
  - rewrite resolve_class_list. exact H.
  - rewrite resolve_class_tuple. exact H.
Qed.

Lemma resolve_class_rejects_scalars_in_sequences_witness :
  Exists is_scalar [PyStr "col"; PyInt 6] /\
  resolve_class (PyInt 6) = Ok (PyInt 6) /\
  (exists msg, resolve_class (PyList [PyStr "col"; PyInt 6])
               = Raise (TypeError msg)).
Proof.
  assert (Hex : Exists is_scalar [PyStr "col"; PyInt 6])
    by (right; left; exact I).
  split; [exact Hex|]. split; [reflexivity|].
  exact (proj1 (resolve_class_rejects_scalars_in_sequences _ Hex)).
Defined.

(** ** parse_front_matter_attrs_and_html and component *)

(** X10: when the front matter reads without error but as nothing or
    as an empty mapping, the attributes are empty and the body is the
    whole source, the block between the dashes included; the body that
    [Frontmatter.read] returned is not used. *)
Theorem parse_front_matter_empty_block (fw : Framework) (source : string)
    (res : FrontmatterResult) :
  startswith source "---" = true ->
  Frontmatter_read fw source = Ok res ->
  attributes_truthy (fm_attributes res) = false ->
  parse_front_matter_attrs_and_html fw source
  = ([EvFrontmatterRead source], Ok ([], source)).
Proof.
  intros Hs Hr Ha. unfold parse_front_matter_attrs_and_html.
  rewrite Hs. run_monad. rewrite Hr. run_monad.
  destruct (fm_attributes res) as [[|item items]|]; try reflexivity.
  discriminate Ha.
Qed.

Lemma parse_front_matter_empty_block_witness :
  parse_front_matter_attrs_and_html Examples.site "--- draft ---"
  = ([EvFrontmatterRead "--- draft ---"], Ok ([], "--- draft ---")).
Proof.
  apply (parse_front_matter_empty_block Examples.site "--- draft ---"
           {| fm_attributes := None; fm_body := EmptyString;
              fm_frontmatter := EmptyString |}); reflexivity.
Defined.

(** X11: a component whose front matter does not parse is not rendered:
    [component] ends with the [TypeError] of the handler of
    [parse_front_matter_attrs_and_html] and has compiled nothing. *)
Theorem component_with_unreadable_front_matter (fw : Framework)
    (name : string) (kwargs : dict) (source : string) (e : exn) :
  loader_get_source (local_jenv fw) (component_path name) = Ok source ->
  startswith source "---" = true ->
  Frontmatter_read fw source = Raise e ->
  component fw name kwargs
  = ([EvGetJenv; EvGetSource (component_path name); EvFrontmatterRead source],
     Raise (TypeError "can only concatenate str to str")).
Proof.
  intros Hsrc Hs He. unfold component, component_path in *. run_monad.
  rewrite Hsrc. run_monad.
  unfold parse_front_matter_attrs_and_html. rewrite Hs. run_monad.
  rewrite He. reflexivity.
Qed.

Lemma component_with_unreadable_front_matter_witness :
  component Examples.site "broken" [("title", PyStr "Inbox")]
  = ([EvGetJenv; EvGetSource (component_path "broken");
      EvFrontmatterRead Examples.broken_source],
     Raise (TypeError "can only concatenate str to str")).
Proof.
  apply (component_with_unreadable_front_matter Examples.site "broken"
           [("title", PyStr "Inbox")] Examples.broken_source
           (OtherException "yaml.parser.ParserError")); reflexivity.
Defined.

(** X12: for a source that does not begin with [---], [component]
    does not call [Frontmatter.read]; it renders the whole source with
    the keyword arguments, the entry [class] replaced by its
    [resolve_class] or set to the empty string when there is none. *)
Theorem component_without_front_matter (fw : Framework) (name : string)
    (kwargs : dict) (source : string) (cls : pyvalue) :
  loader_get_source (local_jenv fw) (component_path name) = Ok source ->
  startswith source "---" = false ->
  dict_wf kwargs ->
  match dict_get "class" kwargs with
  | Some c => resolve_class c
  | None => Ok (PyStr EmptyString)
  end = Ok cls ->
  exists context,
    component fw name kwargs
      = ([EvGetJenv; EvGetSource (component_path name)]
           ++ trace (renders fw source context),
         outcome (renders fw source context)) /\
    dict_get "class" context = Some cls /\
    forall k, k <> "class" -> dict_get k context = dict_get k kwargs.
Proof.
  intros Hsrc Hs Hwk Hcls.
  assert (Hget : forall k, dict_get k (dict_update (dict_update [] []) kwargs)
                           = dict_get k kwargs).
  { intros k. rewrite (dict_get_update k kwargs Hwk).
    destruct (dict_get k kwargs); reflexivity. }
  set (ctx0 := dict_update (dict_update [] []) kwargs) in *.
  exists (dict_set "class" cls ctx0). split; [|split].
  - unfold component, component_path in *. run_monad.
    rewrite Hsrc. run_monad.
    unfold parse_front_matter_attrs_and_html. rewrite Hs. run_monad.
    fold ctx0. rewrite <- (Hget "class") in Hcls.
    destruct (dict_get "class" ctx0) as [c|].
    + run_monad. rewrite Hcls. run_monad. unfold renders. run_monad.
      destruct (from_string (local_jenv fw) source) as [t|e]; run_monad;
        [destruct (render t (dict_set "class" cls ctx0))|]; reflexivity.
    + injection Hcls as <-. run_monad. unfold renders. run_monad.
      destruct (from_string (local_jenv fw) source) as [t|e]; run_monad;
        [destruct (render t (dict_set "class" (PyStr EmptyString) ctx0))|];
        reflexivity.
  - rewrite dict_get_set. reflexivity.
  - intros k Hk. rewrite dict_get_set.
    apply String.eqb_neq in Hk. rewrite Hk. apply Hget.
Qed.

Lemma component_without_front_matter_witness :
  exists context,
    component Examples.site "badge" [("label", PyStr "New")]
      = ([EvGetJenv; EvGetSource (component_path "badge")]
           ++ trace (renders Examples.site Examples.badge_source context),
         outcome (renders Examples.site Examples.badge_source context)) /\
    dict_get "class" context = Some (PyStr EmptyString) /\
    forall k, k <> "class" ->
              dict_get k context = dict_get k [("label", PyStr "New")].
Proof.
  apply (component_without_front_matter Examples.site "badge"
           [("label", PyStr "New")] Examples.badge_source (PyStr EmptyString));
    try reflexivity.
  repeat constructor; cbn [In map fst]; tauto.
Defined.

End RenderingFacts.

(* ================================================================= *)
(** * E-mail templates, validation and the route log                   *)
(* ================================================================= *)

Section FrameworkFacts.
Import Jinja.

Local Ltac run_monad :=
  cbn -[String.append dict_update dict_set dict_get str_in
        Jinja.resolve_class startswith].

(** ** get_email_from_template *)

Lemma append_cancel_l (a b c : string) :
  (a ++ b)%string = (a ++ c)%string -> b = c.
Proof.
  induction a as [|x a IH]; cbn [String.append]; intros H; [exact H|].
  injection H as H. exact (IH H).
Qed.

Lemma email_paths_differ (name : string) :
  EvGetTemplate (email_html_path name) <> EvGetTemplate (email_text_path name).
Proof.
  unfold email_html_path, email_text_path. intros H. injection H as H.
  apply append_cancel_l in H. discriminate H.
Qed.

(** X13: when the HTML template of an e-mail cannot be loaded or
    rendered, [get_email_from_template] raises what that raised and
    never asks for the text template. *)
Theorem email_needs_its_html_template (fw : Framework) (name : string)
    (args : option dict) (e : exn) :
  load_and_render fw (email_html_path name) (JinjaEmail.args_or_empty args)
    = Raise e ->
  outcome (JinjaEmail.get_email_from_template fw name args) = Raise e /\
  ~ In (EvGetTemplate (email_text_path name))
       (trace (JinjaEmail.get_email_from_template fw name args)).
Proof.
  pose proof (email_paths_differ name) as Hdiff.
  unfold load_and_render, email_html_path, email_text_path in *.
  unfold JinjaEmail.get_email_from_template, JinjaEmail.get_template.
  intros Hhtml. run_monad.
  destruct (Jinja.get_template (local_jenv fw)
              ("templates/emails/" ++ name ++ ".html")) as [t|e1];
    cbn [rbind] in Hhtml; run_monad.
  - rewrite Hhtml. run_monad.
    destruct (is_TemplateNotFound e); run_monad;
      (split; [reflexivity|]); intros [H|[H|[H|[]]]];
      try discriminate H; exact (Hdiff H).
  - injection Hhtml as ->.
    destruct (is_TemplateNotFound e); run_monad;
      (split; [reflexivity|]); intros [H|[H|[]]];
      try discriminate H; exact (Hdiff H).
Qed.

Lemma email_needs_its_html_template_witness :
  load_and_render MoreExamples.mail_site (email_html_path "reminder")
                  (JinjaEmail.args_or_empty None)
    = Raise (TemplateNotFound "templates/emails/reminder.html") /\
  outcome (JinjaEmail.get_email_from_template MoreExamples.mail_site "reminder" None)
    = Raise (TemplateNotFound "templates/emails/reminder.html").
Proof.
  split; [reflexivity|].
  apply (email_needs_its_html_template MoreExamples.mail_site "reminder" None).
  reflexivity.
Defined.

(** X14: once the HTML message is rendered, the text message is
    optional only for a missing template: with a text template the call
    returns both messages, with [TemplateNotFound] from the text part it
    returns the HTML message and [None], and any other exception of the
    text part is raised. *)
Theorem email_text_part (fw : Framework) (name : string) (args : option dict)
    (message : string) :
  load_and_render fw (email_html_path name) (JinjaEmail.args_or_empty args)
    = Ok message ->
  outcome (JinjaEmail.get_email_from_template fw name args)
  = match load_and_render fw (email_text_path name)
                          (JinjaEmail.args_or_empty args) with
    | Ok text => Ok (message, Some text)
    | Raise e => if is_TemplateNotFound e then Ok (message, None) else Raise e
    end.
Proof.
  unfold load_and_render, email_html_path, email_text_path.
  unfold JinjaEmail.get_email_from_template, JinjaEmail.get_template.
  intros Hhtml. run_monad.
  destruct (Jinja.get_template (local_jenv fw)
              ("templates/emails/" ++ name ++ ".html")) as [t|e1];
    cbn [rbind] in Hhtml; [|discriminate Hhtml].
  run_monad. rewrite Hhtml. run_monad.
  destruct (Jinja.get_template (local_jenv fw)
              ("templates/emails/" ++ name ++ ".txt")) as [t'|e2]; run_monad.
  - destruct (render t' (JinjaEmail.args_or_empty args)) as [text|e3]; run_monad;
      [reflexivity|].
    destruct (is_TemplateNotFound e3); reflexivity.
  - destruct (is_TemplateNotFound e2); reflexivity.
Qed.

Lemma email_text_part_witness :
  outcome (JinjaEmail.get_email_from_template MoreExamples.mail_site "welcome"
             (Some [("name", PyStr "Erin")]))
    = Ok ("<p>Welcome {{ name }}</p> with name", None) /\
  outcome (JinjaEmail.get_email_from_template MoreExamples.mail_site "digest"
             (Some [("count", PyInt 3)]))
    = Raise (TemplateSyntaxError "unexpected end of template").
Proof.
  split.
  - apply (email_text_part MoreExamples.mail_site "welcome"
             (Some [("name", PyStr "Erin")])). reflexivity.
  - apply (email_text_part MoreExamples.mail_site "digest"
             (Some [("count", PyInt 3)]) "<p>{{ count }} new</p> with count").
    reflexivity.
Defined.

(** ** validate_template *)



(** X16: [validate_template] compiles and never renders; it returns
    normally exactly when the source compiles, shows a message only for
    a [TemplateSyntaxError], and raises every other exception of the
    compiler as it is. *)
Theorem validate_template_only_compiles (site : Frappe.Site) (html : string) :
  let run := Frappe.validate_template site html in
  let compiled := from_string (local_jenv (Frappe.framework site)) html in
  (Frappe.ending run = Ok tt <-> exists t, compiled = Ok t) /\
  (forall context, ~ In (Frappe.Engine (EvRender context)) (Frappe.effects run)) /\
  (forall msg, In (Frappe.Msgprint msg) (Frappe.effects run) ->
               exists message, compiled = Raise (TemplateSyntaxError message)) /\
  (forall e, compiled = Raise e ->
             (forall message, e <> TemplateSyntaxError message) ->
             Frappe.ending run = Raise e).
Proof.
  unfold Frappe.validate_template. run_monad.
  destruct (from_string (local_jenv (Frappe.framework site)) html) as [t|e];
    run_monad.
  - split; [split; eauto|]. split; [|split].
    + intros context [H|[H|[]]]; discriminate H.
    + intros msg [H|[H|[]]]; discriminate H.
    + intros e H. discriminate H.
  - destruct e; run_monad;
      (split; [split; [discriminate | intros [t H]; discriminate H]|]);
      (split; [intros context Hin;
               repeat (destruct Hin as [Hin|Hin]; [discriminate Hin|]);
               exact Hin|]);
      (split; [intros m Hin;
               repeat (destruct Hin as [Hin|Hin]; [try discriminate Hin|]);
               try (destruct Hin); eauto|]);
      intros e' H Hne; injection H as <-; try reflexivity.
    exfalso. exact (Hne _ eq_refl).
Qed.

(** ** deferred_insert_route_history *)

Lemma append_records_of_mappings (user : string) (docs : list pyvalue) :
  Forall is_mapping docs ->
  forall acc, Frappe.append_records user docs acc
              = Ok (acc ++ map (record_for user) docs).
Proof.
  induction 1 as [|doc docs Hdoc _ IH]; intros acc.
  - cbn [Frappe.append_records map]. now rewrite app_nil_r.
  - destruct doc; cbn [is_mapping] in Hdoc; try contradiction.
    cbn [Frappe.append_records Frappe.py_get rbind map].
    rewrite IH, <- app_assoc. reflexivity.
Qed.

Lemma append_records_needs_mappings (user : string) (docs : list pyvalue) :
  Exists (fun doc => ~ is_mapping doc) docs ->
  forall acc, Frappe.append_records user docs acc
              = Raise (OtherException "AttributeError: object has no attribute 'get'").
Proof.
  induction 1 as [doc docs Hdoc | doc docs _ IH]; intros acc.
  - destruct doc; cbn [is_mapping] in Hdoc; try reflexivity.
    exfalso. apply Hdoc. exact I.
  - destruct doc; try reflexivity.
    cbn [Frappe.append_records Frappe.py_get rbind]. apply IH.
Qed.

(** X17: for a list of mappings, [deferred_insert_route_history] makes
    one deferred insert into [Route History], of one record for each
    entry, in the order of the list: the record has the user of the
    session, whatever the entry says of a user, and the route and the
    creation of the entry, [None] where the entry has none. *)
Theorem route_history_records (site : Frappe.Site) (docs : list pyvalue) :
  Forall is_mapping docs ->
  let records :=
    Frappe.json_dumps site
      (PyList (map (record_for (Frappe.session_user site)) docs)) in
  Frappe.deferred_insert_route_history site (PyList docs)
  = ([Frappe.DeferredInsert "Route History" records],
     Frappe.deferred_insert site "Route History" records).
Proof.
  intros Hdocs. unfold Frappe.deferred_insert_route_history.
  cbn [Frappe.fbind Frappe.fret Frappe.flift Frappe.py_iter app].
  rewrite (append_records_of_mappings _ docs Hdocs []).
  cbn [app Frappe.fcall]. reflexivity.
Qed.

Lemma route_history_records_witness :
  Frappe.deferred_insert_route_history MoreExamples.desk MoreExamples.two_routes
  = ([Frappe.DeferredInsert "Route History"
        (Frappe.json_dumps MoreExamples.desk
           (PyList [PyDict [("user", PyStr "erin@example.com");
                            ("route", PyStr "/app/todo");
                            ("creation", PyStr "2021-06-01 10:00:00")];
                    PyDict [("user", PyStr "erin@example.com");
                            ("route", PyStr "/app/note");
                            ("creation", PyNone)]]))],
     Ok tt).
Proof.
  apply (route_history_records MoreExamples.desk
           [PyDict [("route", PyStr "/app/todo");
                    ("creation", PyStr "2021-06-01 10:00:00");
                    ("user", PyStr "Administrator")];
            PyDict [("route", PyStr "/app/note")]]).
  repeat constructor.
Defined.

(** X18: routes given as JSON text are treated as the value the text
    stands for, when that value is not itself a string. *)
Theorem route_history_reads_json (site : Frappe.Site) (s : string)
    (routes : pyvalue) :
  Frappe.json_loads site s = Ok routes ->
  (forall s', routes <> PyStr s') ->
  Frappe.deferred_insert_route_history site (PyStr s)
  = Frappe.deferred_insert_route_history site routes.
Proof.
  intros Hload Hnot. unfold Frappe.deferred_insert_route_history.
  cbn [Frappe.flift]. rewrite Hload.
  destruct routes; try reflexivity.
  exfalso. exact (Hnot _ eq_refl).
Qed.

Lemma route_history_reads_json_witness :
  Frappe.deferred_insert_route_history MoreExamples.desk (PyStr "[two routes]")
  = Frappe.deferred_insert_route_history MoreExamples.desk MoreExamples.two_routes.
Proof.
  apply route_history_reads_json; [reflexivity | discriminate].
Defined.

(** X19: one entry that is not a mapping stops the whole batch:
    [deferred_insert_route_history] raises and makes no deferred
    insert, also when the other entries are well formed. *)
Theorem route_history_all_or_nothing (site : Frappe.Site)
    (docs : list pyvalue) :
  Exists (fun doc => ~ is_mapping doc) docs ->
  Frappe.deferred_insert_route_history site (PyList docs)
  = ([], Raise (OtherException "AttributeError: object has no attribute 'get'")).
Proof.
  intros Hbad. unfold Frappe.deferred_insert_route_history.
  cbn [Frappe.fbind Frappe.fret Frappe.flift Frappe.py_iter app].
  rewrite (append_records_needs_mappings _ docs Hbad []). reflexivity.
Qed.

Lemma route_history_all_or_nothing_witness :
  Frappe.deferred_insert_route_history MoreExamples.desk
    (PyList [PyDict [("route", PyStr "/app/todo")]; PyStr "/app/note"])
  = ([], Raise (OtherException "AttributeError: object has no attribute 'get'")).
Proof.
  apply route_history_all_or_nothing.
  right. left. cbn [is_mapping]. tauto.
Defined.

End FrameworkFacts.

(* ================================================================= *)
(** * Building the environment                                         *)
(* ================================================================= *)

Section SetupFacts.
Import Setup.

(** ** Dictionaries *)

Lemma assoc_get_set {V : Type} (k k' : string) (v : V) (d : list (string * V)) :
  Assoc.get k (Assoc.set k' v d)
  = if String.eqb k k' then Some v else Assoc.get k d.
Proof.
  induction d as [|[k0 v0] d IH]; cbn [Assoc.set Assoc.get].
  - reflexivity.
  - destruct (String.eqb k' k0) eqn:E0; cbn [Assoc.get].
    + apply String.eqb_eq in E0. subst k0.
      destruct (String.eqb k k'); reflexivity.
    + destruct (String.eqb k k0) eqn:E1.
      * apply String.eqb_eq in E1. subst k0.
        rewrite String.eqb_sym in E0. now rewrite E0.
      * exact IH.
Qed.

Lemma assoc_get_absent {V : Type} (k : string) (d : list (string * V)) :
  ~ In k (map fst d) -> Assoc.get k d = None.
Proof.
  induction d as [|[k' v'] d IH]; intros Hk; [reflexivity|].
  cbn [Assoc.get]. destruct (String.eqb k k') eqn:E.
  - apply String.eqb_eq in E. subst. exfalso. apply Hk. now left.
  - apply IH. intros H. apply Hk. now right.
Qed.

Lemma assoc_get_update {V : Type} (k : string) (other : list (string * V)) :
  keys_once other ->
  forall d, Assoc.get k (Assoc.update d other)
            = match Assoc.get k other with
              | Some v => Some v
              | None => Assoc.get k d
              end.
Proof.
  unfold keys_once, Assoc.update.
  induction other as [|[k0 v0] other IH]; intros Hwf d; [reflexivity|].
  cbn [map fst] in Hwf. inversion Hwf as [|? ? Hnotin Hwf']; subst.
  cbn [fold_left fst snd Assoc.get]. rewrite (IH Hwf'), assoc_get_set.
  destruct (String.eqb k k0) eqn:E; [|reflexivity].
  apply String.eqb_eq in E. subst k0.
  now rewrite (assoc_get_absent k other Hnotin).
Qed.

Lemma assoc_set_keys {V : Type} (k : string) (v : V) (d : list (string * V)) :
  map fst (Assoc.set k v d)
  = if existsb (String.eqb k) (map fst d) then map fst d
    else map fst d ++ [k].
Proof.
  induction d as [|[k0 v0] d IH]; cbn [Assoc.set map fst existsb app].
  - reflexivity.
  - destruct (String.eqb k k0); cbn [map fst orb]; [reflexivity|].
    rewrite IH. destruct (existsb (String.eqb k) (map fst d)); reflexivity.
Qed.

Lemma assoc_set_keys_once {V : Type} (k : string) (v : V) (d : list (string * V)) :
  keys_once d -> keys_once (Assoc.set k v d).
Proof.
  unfold keys_once. intros Hd. rewrite assoc_set_keys.
  destruct (existsb (String.eqb k) (map fst d)) eqn:E; [exact Hd|].
  apply NoDup_app; [exact Hd | repeat constructor; intros [] | ].
  intros x Hx [Hk|[]]. subst x.
  assert (existsb (String.eqb k) (map fst d) = true).
  { apply existsb_exists. exists k. split; [exact Hx | apply String.eqb_refl]. }
  congruence.
Qed.

(** ** get_jenv_customization *)

Lemma rsplit_length (s : string) (sep : ascii) :
  List.length (rsplit s sep) = S (count_char sep s).
Proof.
  induction s as [|c s IH]; cbn [rsplit count_char]; [reflexivity|].
  destruct (Ascii.eqb c sep); cbn [List.length]; [now rewrite IH|].
  pose proof (rsplit_not_nil s sep) as Hne.
  destruct (rsplit s sep); [contradiction | exact IH].
Qed.

Lemma rsplit_one_colon (value : string) :
  count_char ":" value = 1 ->
  rsplit value ":" = [hook_name value; hook_ref value].
Proof.
  intros Hc. pose proof (rsplit_length value ":") as Hl. rewrite Hc in Hl.
  unfold hook_name, hook_ref.
  destruct (rsplit value ":") as [|a [|b [|c l]]]; try discriminate Hl.
  reflexivity.
Qed.

Lemma customization_loop_bad_value (inst : Installation) (values : list string) :
  Exists (fun value => count_char ":" value <> 1) values ->
  (forall ref, exists fn, get_attr inst ref = Ok fn) ->
  forall out, customization_loop inst values out
              = Raise (OtherException "ValueError: cannot unpack").
Proof.
  intros Hbad Hattr.
  induction Hbad as [value values Hv | value values _ IH]; intros out;
    cbn [customization_loop].
  - pose proof (rsplit_length value ":") as Hl.
    destruct (rsplit value ":") as [|a [|b [|c l]]]; try reflexivity.
    exfalso. apply Hv. cbn [List.length] in Hl. congruence.
  - destruct (rsplit value ":") as [|a [|b [|c l]]]; try reflexivity.
    destruct (Hattr b) as [fn ->]. cbn [rbind]. apply IH.
Qed.

(** X20: a hook value that does not hold exactly one colon makes
    [get_jenv_customization] raise [ValueError] and return nothing,
    also when the other values are well formed. *)
Theorem customization_needs_one_colon (inst : Installation)
    (customization_type name : string) (values : list string) :
  site inst = Some name -> name <> EmptyString ->
  jenv_hooks inst customization_type = Some values ->
  (forall ref, exists fn, get_attr inst ref = Ok fn) ->
  Exists (fun value => count_char ":" value <> 1) values ->
  get_jenv_customization inst customization_type
  = Raise (OtherException "ValueError: cannot unpack").
Proof.
  intros Hsite Hname Hhooks Hattr Hbad. unfold get_jenv_customization.
  rewrite Hsite. apply String.eqb_neq in Hname. rewrite Hname, Hhooks.
  destruct values as [|value values]; [inversion Hbad|].
  apply customization_loop_bad_value; assumption.
Qed.

Lemma customization_needs_one_colon_witness :
  get_jenv_customization MoreExamples.bench_with_bad_hook "methods"
  = Raise (OtherException "ValueError: cannot unpack").
Proof.
  apply (customization_needs_one_colon MoreExamples.bench_with_bad_hook
           "methods" "site1.local"
           ["fmt_money:erpnext.utils.fmt_money"; "erpnext.utils.component"]).
  - reflexivity.
  - discriminate.
  - reflexivity.
  - intros ref. exists ref. reflexivity.
  - right. left. cbn. discriminate.
Defined.

Lemma find_app {A : Type} (f : A -> bool) (l1 l2 : list A) :
  find f (l1 ++ l2)
  = match find f l1 with Some x => Some x | None => find f l2 end.
Proof.
  induction l1 as [|x l1 IH]; cbn [app find]; [reflexivity|].
  destruct (f x); [reflexivity | exact IH].
Qed.

Lemma registered_cons (value : string) (values : list string) (name : string) :
  registered (value :: values) name
  = match registered values name with
    | Some ref => Some ref
    | None => if String.eqb (hook_name value) name
              then Some (hook_ref value) else None
    end.
Proof.
  unfold registered. cbn [rev]. rewrite find_app. cbn [find].
  destruct (find _ (rev values)); cbn [option_map]; [reflexivity|].
  destruct (String.eqb (hook_name value) name); reflexivity.
Qed.

Lemma customization_loop_registers (inst : Installation)
    (resolve : string -> callable) (values : list string) :
  Forall (fun value => count_char ":" value = 1) values ->
  (forall ref, get_attr inst ref = Ok (resolve ref)) ->
  forall out, keys_once out ->
    exists out',
      customization_loop inst values out = Ok out' /\
      keys_once out' /\
      forall name, Assoc.get name out'
                   = match registered values name with
                     | Some ref => Some (resolve ref)
                     | None => Assoc.get name out
                     end.
Proof.
  intros Hvalues Hattr.
  induction Hvalues as [|value values Hv _ IH]; intros out Hout.
  - exists out. repeat split; assumption.
  - cbn [customization_loop]. rewrite (rsplit_one_colon value Hv), Hattr.
    cbn [rbind].
    destruct (IH (Assoc.set (hook_name value) (resolve (hook_ref value)) out))
      as [out' [Hrun [Hkeys Hget]]].
    { apply assoc_set_keys_once, Hout. }
    exists out'. split; [exact Hrun|]. split; [exact Hkeys|].
    intros name. rewrite Hget, registered_cons, assoc_get_set.
    destruct (registered values name); [reflexivity|].
    rewrite (String.eqb_sym name). 
    destruct (String.eqb (hook_name value) name); reflexivity.
Qed.

(** X21: when every hook value holds one colon and every reference
    resolves, [get_jenv_customization] returns a dictionary in which a
    name stands for the function of the last value that names it, and
    no other name is bound. *)
Theorem customization_last_value_wins (inst : Installation)
    (customization_type name : string) (values : list string)
    (resolve : string -> callable) :
  site inst = Some name -> name <> EmptyString ->
  jenv_hooks inst customization_type = Some values ->
  (forall ref, get_attr inst ref = Ok (resolve ref)) ->
  Forall (fun value => count_char ":" value = 1) values ->
  exists out,
    get_jenv_customization inst customization_type = Ok out /\
    forall fn_name,
      Assoc.get fn_name out = option_map resolve (registered values fn_name).
Proof.
  intros Hsite Hname Hhooks Hattr Hvalues. unfold get_jenv_customization.
  rewrite Hsite. apply String.eqb_neq in Hname. rewrite Hname, Hhooks.
  destruct (customization_loop_registers inst resolve values Hvalues Hattr [])
    as [out [Hrun [_ Hget]]]; [constructor|].
  exists out. split.
  - destruct values; [|exact Hrun]. cbn [customization_loop] in Hrun. exact Hrun.
  - intros fn_name. rewrite Hget.
    destruct (registered values fn_name); reflexivity.
Qed.

Lemma customization_last_value_wins_witness :
  exists out,
    get_jenv_customization MoreExamples.bench "methods" = Ok out /\
    forall fn_name,
      Assoc.get fn_name out
      = option_map (fun ref => ref)
          (registered ["fmt_money:erpnext.utils.fmt_money";
                       "component:erpnext.utils.component"] fn_name).
Proof.
  apply (customization_last_value_wins MoreExamples.bench "methods" "site1.local").
  - reflexivity.
  - discriminate.
  - reflexivity.
  - reflexivity.
  - repeat constructor.
Defined.

Lemma customization_keys_once (inst : Installation) (customization_type : string)
    (out : namespace) :
  get_jenv_customization inst customization_type = Ok out -> keys_once out.
Proof.
  assert (Hloop : forall values acc out',
             keys_once acc -> customization_loop inst values acc = Ok out' ->
             keys_once out').
  { induction values as [|value values IH]; intros acc out' Hacc Hrun.
    - injection Hrun as <-. exact Hacc.
    - cbn [customization_loop] in Hrun.
      destruct (rsplit value ":") as [|a [|b [|c l]]]; try discriminate Hrun.
      destruct (get_attr inst b) as [fn|e]; cbn [rbind] in Hrun;
        [|discriminate Hrun].
      eapply IH; [|exact Hrun]. apply assoc_set_keys_once, Hacc. }
  unfold get_jenv_customization.
  destruct (site inst) as [name|]; [|intros H; injection H as <-; constructor].
  destruct (String.eqb name EmptyString);
    [intros H; injection H as <-; constructor|].
  destruct (jenv_hooks inst customization_type) as [[|value values]|];
    try (intros H; injection H as <-; constructor).
  apply Hloop. constructor.
Qed.

(** ** get_jloader *)

Lemma prefix_mapping_lookup (apps : list string) (app : string) :
  forall d : list (string * Loader),
    Assoc.get app
      (fold_left (fun d app => Assoc.set app (PackageLoader app ".") d) apps d)
    = if existsb (String.eqb app) apps then Some (PackageLoader app ".")
      else Assoc.get app d.
Proof.
  induction apps as [|a apps IH]; intros d; cbn [fold_left existsb];
    [reflexivity|].
  rewrite IH, assoc_get_set.
  destruct (existsb (String.eqb app) apps); [now rewrite orb_true_r|].
  rewrite orb_false_r.
  destruct (String.eqb app a) eqn:E; [|reflexivity].
  apply String.eqb_eq in E. now subst a.
Qed.

Lemma loader_apps_has_frappe (inst : Installation) :
  In "frappe" (loader_apps inst).
Proof.
  unfold loader_apps.
  match goal with
  | |- context [existsb (String.eqb "frappe") ?apps] =>
      destruct (existsb (String.eqb "frappe") apps) eqn:E; cbn [negb]
  end.
  - apply existsb_exists in E. destruct E as [x [Hx Ex]].
    apply String.eqb_eq in Ex. now subst x.
  - apply in_or_app. right. now left.
Qed.

(** X22: the loader that [get_jloader] builds serves [frappe] whatever
    the hooks and the installed apps are: its templates are found
    both under the prefix [frappe] and without a prefix; and the prefix
    of every app in the search leads to the package of that app, no
    other prefix to anything. *)
Theorem jloader_serves_frappe (inst : Installation) (local : Local) :
  local_jloader local = None ->
  exists mapping,
    snd (get_jloader inst local)
    = ChoiceLoader (PrefixLoader mapping
                    :: map (fun app => PackageLoader app ".") (loader_apps inst)) /\
    In (PackageLoader "frappe" ".")
       (map (fun app => PackageLoader app ".") (loader_apps inst)) /\
    Assoc.get "frappe" mapping = Some (PackageLoader "frappe" ".") /\
    forall app, Assoc.get app mapping
                = if existsb (String.eqb app) (loader_apps inst)
                  then Some (PackageLoader app ".") else None.
Proof.
  intros Hnone. unfold get_jloader. rewrite Hnone. cbn [snd app].
  eexists. split; [reflexivity|].
  pose proof (loader_apps_has_frappe inst) as Hin.
  split; [|split].
  - apply (in_map (fun app => PackageLoader app ".")), Hin.
  - rewrite prefix_mapping_lookup.
    assert (E : existsb (String.eqb "frappe") (loader_apps inst) = true).
    { apply existsb_exists. exists "frappe". split; [exact Hin | reflexivity]. }
    now rewrite E.
  - intros app. rewrite prefix_mapping_lookup. reflexivity.
Qed.

Lemma jloader_serves_frappe_witness :
  exists mapping,
    snd (get_jloader MoreExamples.bench MoreExamples.fresh)
    = ChoiceLoader (PrefixLoader mapping
                    :: [PackageLoader "erpnext" "."; PackageLoader "frappe" "."]) /\
    Assoc.get "frappe" mapping = Some (PackageLoader "frappe" ".").
Proof.
  destruct (jloader_serves_frappe MoreExamples.bench MoreExamples.fresh eq_refl)
    as [mapping [Hl [_ [Hf _]]]].
  exists mapping. split; [exact Hl | exact Hf].
Defined.

(** ** get_jenv *)

Lemma own_globals_keys_once : keys_once own_globals.
Proof.
  unfold keys_once, own_globals. cbn [map fst].
  repeat constructor; cbn [In]; intros H;
    repeat (destruct H as [H|H]; [discriminate H|]); exact H.
Qed.

Lemma own_filters_keys_once : keys_once own_filters.
Proof.
  unfold keys_once, own_filters. cbn [map fst].
  repeat constructor; cbn [In]; intros H;
    repeat (destruct H as [H|H]; [discriminate H|]); exact H.
Qed.

(** X23: in a newly built environment the globals [component], [c],
    [resolve_class] and [inspect] are the functions of jinja.py, and no
    hook or safe global replaces them; any other name is taken from
    the [methods] hooks first, then from the safe globals, then from
    what jinja2 provides. *)
Theorem jenv_globals_precedence (inst : Installation) (local local' : Local)
    (jenv : Jenv) :
  local_jenv local = None ->
  keys_once (safe_globals inst) ->
  get_jenv inst local = (local', Ok jenv) ->
  exists methods,
    get_jenv_customization inst "methods" = Ok methods /\
    (forall name,
        Assoc.get name (globals jenv)
        = first_of [own_globals; methods; safe_globals inst; default_globals inst]
                   name) /\
    Assoc.get "component" (globals jenv) = Some "frappe.utils.jinja.component" /\
    Assoc.get "c" (globals jenv) = Some "frappe.utils.jinja.component" /\
    Assoc.get "resolve_class" (globals jenv)
      = Some "frappe.utils.jinja.resolve_class" /\
    Assoc.get "inspect" (globals jenv) = Some "frappe.utils.jinja.inspect".
Proof.
  intros Hnone Hsafe Hrun. unfold get_jenv in Hrun. rewrite Hnone in Hrun.
  destruct (get_jloader inst local) as [local1 jloader].
  destruct (set_filters inst (default_filters inst)) as [fs|e];
    [|discriminate Hrun].
  destruct (get_jenv_customization inst "methods") as [methods|e] eqn:Em;
    [|discriminate Hrun].
  injection Hrun as _ <-. cbn [globals].
  exists methods. split; [reflexivity|].
  assert (Hall : forall name,
             Assoc.get name
               (Assoc.update
                  (Assoc.update
                     (Assoc.update (default_globals inst) (safe_globals inst))
                     methods) own_globals)
             = first_of [own_globals; methods; safe_globals inst;
                         default_globals inst] name).
  { intros name. cbn [first_of].
    rewrite (assoc_get_update name own_globals own_globals_keys_once).
    rewrite (assoc_get_update name methods (customization_keys_once _ _ _ Em)).
    rewrite (assoc_get_update name (safe_globals inst) Hsafe).
    destruct (Assoc.get name own_globals); [reflexivity|].
    destruct (Assoc.get name methods); [reflexivity|].
    destruct (Assoc.get name (safe_globals inst)); [reflexivity|].
    destruct (Assoc.get name (default_globals inst)); reflexivity. }
  split; [exact Hall|].
  repeat split; rewrite Hall; reflexivity.
Qed.

Lemma jenv_globals_precedence_witness :
  exists jenv,
    snd (get_jenv MoreExamples.bench MoreExamples.fresh) = Ok jenv /\
    Assoc.get "component" (globals jenv) = Some "frappe.utils.jinja.component" /\
    Assoc.get "fmt_money" (globals jenv) = Some "erpnext.utils.fmt_money".
Proof.
  destruct (get_jenv MoreExamples.bench MoreExamples.fresh) as [local' [jenv|e]] eqn:E;
    [|vm_compute in E; discriminate E].
  exists jenv. split; [reflexivity|].
  assert (Hsafe : keys_once (safe_globals MoreExamples.bench)).
  { unfold keys_once. cbn [map fst safe_globals MoreExamples.bench].
    repeat constructor; cbn [In]; intros H;
      repeat (destruct H as [H|H]; [discriminate H|]); exact H. }
  destruct (jenv_globals_precedence MoreExamples.bench MoreExamples.fresh
              local' jenv eq_refl Hsafe E)
    as [methods [Hm [Hall [Hc _]]]].
  split; [exact Hc|].
  rewrite Hall. vm_compute in Hm. injection Hm as <-. reflexivity.
Defined.

(** X24: in a newly built environment a filter registered by a
    [filters] hook comes before the nine filters of [set_filters] of
    the same name, and those before the filters of jinja2; in setup
    help the hooks are not read and no hook filter is there. *)
Theorem jenv_filters_precedence (inst : Installation) (local local' : Local)
    (jenv : Jenv) :
  local_jenv local = None ->
  get_jenv inst local = (local', Ok jenv) ->
  exists custom,
    (if in_setup_help inst then custom = []
     else get_jenv_customization inst "filters" = Ok custom) /\
    forall name,
      Assoc.get name (filters jenv)
      = first_of [custom; own_filters; default_filters inst] name.
Proof.
  intros Hnone Hrun. unfold get_jenv in Hrun. rewrite Hnone in Hrun.
  destruct (get_jloader inst local) as [local1 jloader].
  destruct (set_filters inst (default_filters inst)) as [fs|e] eqn:Ef;
    [|discriminate Hrun].
  destruct (get_jenv_customization inst "methods") as [methods|e];
    [|discriminate Hrun].
  injection Hrun as _ <-. cbn [filters].
  unfold set_filters in Ef.
  assert (Hbase : forall name,
             Assoc.get name (Assoc.update (default_filters inst) own_filters)
             = first_of [own_filters; default_filters inst] name).
  { intros name. cbn [first_of].
    rewrite (assoc_get_update name own_filters own_filters_keys_once).
    destruct (Assoc.get name own_filters); [reflexivity|].
    destruct (Assoc.get name (default_filters inst)); reflexivity. }
  remember (Assoc.update (default_filters inst) own_filters) as base eqn:Eb.
  clear Eb.
  destruct (in_setup_help inst).
  - injection Ef as <-. exists []. split; [reflexivity|].
    intros name. rewrite Hbase. reflexivity.
  - destruct (get_jenv_customization inst "filters") as [custom|e] eqn:Ec;
      cbn [rbind] in Ef; [|discriminate Ef].
    injection Ef as <-. exists custom. split; [reflexivity|].
    intros name.
    rewrite (assoc_get_update name custom (customization_keys_once _ _ _ Ec)).
    rewrite Hbase. cbn [first_of].
    destruct (Assoc.get name custom); reflexivity.
Qed.

Lemma jenv_filters_precedence_witness :
  exists jenv,
    snd (get_jenv MoreExamples.bench MoreExamples.fresh) = Ok jenv /\
    Assoc.get "json" (filters jenv) = Some "erpnext.utils.to_json" /\
    Assoc.get "len" (filters jenv) = Some "len" /\
    Assoc.get "upper" (filters jenv) = Some "jinja2.filters.do_upper".
Proof.
  destruct (get_jenv MoreExamples.bench MoreExamples.fresh) as [local' [jenv|e]] eqn:E;
    [|vm_compute in E; discriminate E].
  exists jenv. split; [reflexivity|].
  destruct (jenv_filters_precedence MoreExamples.bench MoreExamples.fresh
              local' jenv eq_refl E) as [custom [Hc Hall]].
  cbn [in_setup_help MoreExamples.bench] in Hc.
  vm_compute in Hc. injection Hc as <-.
  repeat split; rewrite Hall; reflexivity.
Defined.

(** X25: when building the environment fails, nothing is kept of it:
    [frappe.local.jenv] stays unset, and the next call fails in the
    same way. *)
Theorem get_jenv_failure_is_not_cached (inst : Installation)
    (local local' : Local) (e : exn) :
  local_jenv local = None ->
  get_jenv inst local = (local', Raise e) ->
  local_jenv local' = None /\ get_jenv inst local' = (local', Raise e).
Proof.
  intros Hnone Hrun. unfold get_jenv in Hrun. rewrite Hnone in Hrun.
  assert (Hloader : local_jenv (fst (get_jloader inst local)) = None /\
                    get_jloader inst (fst (get_jloader inst local))
                    = (fst (get_jloader inst local),
                       snd (get_jloader inst local))).
  { unfold get_jloader.
    destruct (local_jloader local) as [jl|] eqn:El; cbn [fst snd].
    - rewrite El. split; [exact Hnone | reflexivity].
    - cbn [local_jloader local_jenv]. split; [exact Hnone | reflexivity]. }
  destruct Hloader as [Hj Hl].
  destruct (get_jloader inst local) as [local1 jloader]. cbn [fst snd] in *.
  unfold get_jenv. 
  destruct (set_filters inst (default_filters inst)) as [fs|e1].
  - destruct (get_jenv_customization inst "methods") as [methods|e2];
      [discriminate Hrun|].
    injection Hrun as <- <-. split; [exact Hj|].
    rewrite Hj, Hl. reflexivity.
  - injection Hrun as <- <-. split; [exact Hj|].
    rewrite Hj, Hl. reflexivity.
Qed.

Lemma get_jenv_failure_is_not_cached_witness :
  exists local',
    get_jenv MoreExamples.bench_with_bad_hook MoreExamples.fresh
      = (local', Raise (OtherException "ValueError: cannot unpack")) /\
    local_jenv local' = None /\
    get_jenv MoreExamples.bench_with_bad_hook local'
      = (local', Raise (OtherException "ValueError: cannot unpack")).
Proof.
  destruct (get_jenv MoreExamples.bench_with_bad_hook MoreExamples.fresh)
    as [local' r] eqn:E.
  assert (Hr : r = Raise (OtherException "ValueError: cannot unpack"))
    by (vm_compute in E; injection E as _ <-; reflexivity).
  subst r. exists local'. split; [reflexivity|].
  exact (get_jenv_failure_is_not_cached MoreExamples.bench_with_bad_hook
           MoreExamples.fresh local' _ eq_refl E).
Defined.

(** X26: the environment is built once: after a call that returned an
    environment, the next call returns the same one and leaves
    [frappe.local] as it is, whatever the installation says by then. *)
Theorem get_jenv_is_cached (inst inst' : Installation) (local local' : Local)
    (jenv : Jenv) :
  get_jenv inst local = (local', Ok jenv) ->
  get_jenv inst' local' = (local', Ok jenv).
Proof.
  intros Hrun. unfold get_jenv in Hrun.
  destruct (local_jenv local) as [cached|] eqn:Ec.
  - injection Hrun as <- <-. unfold get_jenv. rewrite Ec. reflexivity.
  - destruct (get_jloader inst local) as [local1 jloader].
    destruct (set_filters inst (default_filters inst)) as [fs|e];
      [|discriminate Hrun].
    destruct (get_jenv_customization inst "methods") as [methods|e];
      [|discriminate Hrun].
    injection Hrun as <- <-. reflexivity.
Qed.

Lemma get_jenv_is_cached_witness :
  exists local' jenv,
    get_jenv MoreExamples.bench MoreExamples.fresh = (local', Ok jenv) /\
    get_jenv MoreExamples.bench_with_bad_hook local' = (local', Ok jenv).
Proof.
  destruct (get_jenv MoreExamples.bench MoreExamples.fresh) as [local' [jenv|e]] eqn:E;
    [|vm_compute in E; discriminate E].
  exists local', jenv. split; [reflexivity|].
  exact (get_jenv_is_cached MoreExamples.bench MoreExamples.bench_with_bad_hook
           MoreExamples.fresh local' jenv E).
Defined.

End SetupFacts.
